(** * A shallow embedding of the deal-memo service

    The service is a Flask endpoint ([main.py]) and three tool modules
    ([tools/validation_tools.py], [tools/maps_tools.py],
    [tools/bigquery_tools.py]).  Each Python function is embedded as a Rocq
    function of the same name.  The outside world a function talks to (the
    geocoding API, the BigQuery warehouse, the generative model) is an explicit
    argument, and a Python exception is an explicit [Raise] outcome. *)

From Stdlib Require Import ZArith NArith List Bool Lia String Ascii.
From Stdlib Require Import Sorting.Sorted SpecFloat.
From stdpp Require Import base decidable countable gmap.
Import ListNotations.

Set Warnings "-register-all".

(** ** Python values *)

Module Py.

(** A Python [str] is a sequence of Unicode code points; [len] counts them. *)
Abbreviation pystr := (list N).

(** An ASCII literal of the source as a [str]. *)
Definition py (s : string) : pystr :=
  List.map N_of_ascii (list_ascii_of_string s).

(** [str.isspace] on one code point: the characters CPython treats as
    whitespace (bidirectional class WS, B or S, or category Zs). *)
Definition isspace (c : N) : bool :=
  ((9 <=? c) && (c <=? 13) || (28 <=? c) && (c <=? 32)
   || (c =? 133) || (c =? 160) || (c =? 5760)
   || (8192 <=? c) && (c <=? 8202)
   || (c =? 8232) || (c =? 8233) || (c =? 8239) || (c =? 8287)
   || (c =? 12288))%N.

(** [s.lstrip()], [s.rstrip()] and [s.strip()] without argument. *)
Fixpoint lstrip (s : pystr) : pystr :=
  match s with
  | c :: s' => if isspace c then lstrip s' else s
  | [] => []
  end.

Definition rstrip (s : pystr) : pystr := rev (lstrip (rev s)).

Definition strip (s : pystr) : pystr := rstrip (lstrip s).

(** Truth value of a [str]: the empty string is falsy. *)
Definition str_truthy (s : pystr) : bool :=
  match s with [] => false | _ :: _ => true end.

Fixpoint startswith (p s : pystr) : bool :=
  match p, s with
  | [], _ => true
  | a :: p', b :: s' => (a =? b)%N && startswith p' s'
  | _ :: _, [] => false
  end.

(** [p in s] for two strings: [p] occurs as a substring of [s]. *)
Fixpoint substring_of (p s : pystr) : bool :=
  startswith p s ||
  match s with
  | [] => false
  | _ :: s' => substring_of p s'
  end.

(** What [json.loads] (behind [request.get_json] and [response.json]) builds:
    [None], [bool], [int], [float], [str], [list], and [dict] with string
    keys.  A float is kept as its IEEE 754 datum; no arithmetic is done on
    it. *)
Inductive json : Type :=
| JNull
| JBool (b : bool)
| JInt (z : Z)
| JFloat (f : spec_float)
| JStr (s : pystr)
| JArr (l : list json)
| JObj (m : gmap pystr json).

(** [bool(v)], the test behind [if v] and [not v]. *)
Definition truthy (v : json) : bool :=
  match v with
  | JNull => false
  | JBool b => b
  | JInt z => negb (z =? 0)%Z
  | JFloat (S754_zero _) => false
  | JFloat _ => true
  | JStr s => str_truthy s
  | JArr l => match l with [] => false | _ :: _ => true end
  | JObj m => negb (bool_decide (dom m = ∅))
  end.

Definition is_dict (v : json) : bool :=
  match v with JObj _ => true | _ => false end.

Definition is_str (v : json) : bool :=
  match v with JStr _ => true | _ => false end.

(** [type(v).__name__] *)
Definition type_name (v : json) : pystr :=
  match v with
  | JNull => py "NoneType"
  | JBool _ => py "bool"
  | JInt _ => py "int"
  | JFloat _ => py "float"
  | JStr _ => py "str"
  | JArr _ => py "list"
  | JObj _ => py "dict"
  end.

(** The exception classes the service can meet, all below [Exception].
    [Timeout] is a subclass of [RequestException] (package [requests]);
    [OtherException] stands for any further subclass of [Exception]. *)
Inductive exn_class : Type :=
| Timeout
| RequestException
| KeyError
| IndexError
| TypeError
| AttributeError
| OtherException.

(** An exception object: its class and [str(e)].  The wording of the messages
    of built-in errors is the interpreter's (CPython 3.11). *)
Record exn : Type := Exn { exn_cls : exn_class; exn_str : pystr }.

(** [isinstance(e, requests.exceptions.Timeout)] *)
Definition is_Timeout (e : exn) : bool :=
  match exn_cls e with Timeout => true | _ => false end.

(** [isinstance(e, requests.exceptions.RequestException)] *)
Definition is_RequestException (e : exn) : bool :=
  match exn_cls e with Timeout | RequestException => true | _ => false end.

(** The outcome of evaluating Python code: a value, or a raised exception. *)
Inductive outcome (A : Type) : Type :=
| Return (a : A)
| Raise (e : exn).
Arguments Return {A} a.
Arguments Raise {A} e.

Definition bind {A B : Type} (c : outcome A) (k : A -> outcome B) : outcome B :=
  match c with
  | Return a => k a
  | Raise e => Raise e
  end.

Notation "'let*' x ':=' c 'in' k" := (bind c (fun x => k))
  (at level 10, x name, c at level 100, k at level 200).

(** [try: body  except Exception as e: handler(e)] *)
Definition try_except {A : Type} (body : outcome A) (handler : exn -> outcome A)
  : outcome A :=
  match body with
  | Return a => Return a
  | Raise e => handler e
  end.

(** [v[k]] with a string key. *)
Definition getitem (v : json) (k : pystr) : outcome json :=
  match v with
  | JObj m =>
      match m !! k with
      | Some x => Return x
      | None => Raise (Exn KeyError (py "'" ++ k ++ py "'"))
      end
  | JArr _ =>
      Raise (Exn TypeError (py "list indices must be integers or slices, not str"))
  | JStr _ =>
      Raise (Exn TypeError (py "string indices must be integers, not 'str'"))
  | _ =>
      Raise (Exn TypeError (py "'" ++ type_name v ++ py "' object is not subscriptable"))
  end.

(** [v[0]] *)
Definition getitem0 (v : json) : outcome json :=
  match v with
  | JArr (x :: _) => Return x
  | JArr [] => Raise (Exn IndexError (py "list index out of range"))
  | JStr (c :: _) => Return (JStr [c])
  | JStr [] => Raise (Exn IndexError (py "string index out of range"))
  | JObj _ => Raise (Exn KeyError (py "0"))
  | _ =>
      Raise (Exn TypeError (py "'" ++ type_name v ++ py "' object is not subscriptable"))
  end.

(** [v.get(k)]: only a [dict] has the method. *)
Definition get (v : json) (k : pystr) : outcome json :=
  match v with
  | JObj m => Return (default JNull (m !! k))
  | _ =>
      Raise (Exn AttributeError
               (py "'" ++ type_name v ++ py "' object has no attribute 'get'"))
  end.

(** [s == x] for a string [s] and any value [x]. *)
Definition str_eq (s : pystr) (x : json) : bool :=
  match x with
  | JStr t => bool_decide (s = t)
  | _ => false
  end.

(** [s in v] for a string [s]: membership in a list, substring of a string,
    key of a dict. *)
Definition contains (v : json) (s : pystr) : outcome bool :=
  match v with
  | JArr l => Return (existsb (str_eq s) l)
  | JStr t => Return (substring_of s t)
  | JObj m => Return (bool_decide (is_Some (m !! s)))
  | _ =>
      Raise (Exn TypeError
               (py "argument of type '" ++ type_name v ++ py "' is not iterable"))
  end.

(** The items [for x in v] runs over. *)
Definition iter (v : json) : outcome (list json) :=
  match v with
  | JArr l => Return l
  | JStr s => Return (List.map (fun c => JStr [c]) s)
  | JObj m => Return (List.map (fun kv => JStr (fst kv)) (map_to_list m))
  | _ =>
      Raise (Exn TypeError (py "'" ++ type_name v ++ py "' object is not iterable"))
  end.

(** A value of [os.environ.get(name)], [None] or a [str]: its truth value
    and its rendering in an f-string. *)
Definition env_truthy (v : option pystr) : bool :=
  match v with Some s => str_truthy s | None => false end.

Definition env_str (v : option pystr) : pystr :=
  match v with Some s => s | None => py "None" end.

(** [str(v)] as an f-string or [str.format] renders a value.  The rendering
    of numbers and containers is the interpreter's [repr], a parameter. *)
Class Repr := { repr : json -> pystr }.

Definition str {R : Repr} (v : json) : pystr :=
  match v with
  | JStr s => s
  | JNull => py "None"
  | JBool true => py "True"
  | JBool false => py "False"
  | _ => repr v
  end.

(** An interpreter for the examples: it renders every number and container
    as the same text.  The theorems hold for every [Repr]. *)
Definition opaque_repr : Repr := {| repr := fun _ => py "<object>" |}.

(** A string is blank when it is empty or made of whitespace only. *)
Definition blank (s : pystr) : bool := forallb isspace s.

Definition has_key (m : gmap pystr json) (k : pystr) : bool :=
  match m !! k with Some _ => true | None => false end.

End Py.
Import Py.
Arguments py : simpl never.

(** ** tools/validation_tools.py *)

Module ValidationTools.

(** The dict [{"valid": ..., "reason": ...}]. *)
Record ValidationResult : Type := { valid : bool; reason : pystr }.

Definition validate_address (address : pystr) : ValidationResult :=
  if negb (str_truthy address) then
    {| valid := false; reason := py "Address cannot be empty." |}
  else if (length address <? 10)%nat then
    {| valid := false; reason := py "Address is too short to be valid." |}
  else
    {| valid := true; reason := py "Address format appears valid." |}.

End ValidationTools.

(** ** tools/maps_tools.py *)

Module MapsTools.

(** What the module reads from outside: the environment variable
    [MAPS_API_KEY] ([None] when unset), and the geocoding service, as the
    outcome of [requests.get(url, timeout=10)], [raise_for_status()] and
    [response.json()] for a URL. *)
Record maps_env : Type := {
  MAPS_API_KEY : option pystr;
  requests_get_json : pystr -> outcome json
}.

(** The success dict of [get_geocode_and_place_id]; a field left at [None]
    is [JNull]. *)
Record GeoResult : Type := {
  latitude : json;
  longitude : json;
  place_id : json;
  formatted_address : json;
  city : json;
  state : json;
  zip_code : json
}.

(** The returned dict: [{"error": msg}] or the success dict. *)
Inductive payload : Type :=
| Error (msg : pystr)
| Geocoded (r : GeoResult).

(** [for x in items: s = body(s, x)] *)
Fixpoint for_each {S : Type} (body : S -> json -> outcome S)
    (items : list json) (s : S) : outcome S :=
  match items with
  | [] => Return s
  | x :: rest => let* s' := body s x in for_each body rest s'
  end.

(** The body of the loop over [address_components] (lines 32-37), on the
    local variables [(city, state, zip_code)]. *)
Definition scan_component (vars : json * json * json) (component : json)
  : outcome (json * json * json) :=
  let '(city, state, zip_code) := vars in
  let* types := getitem component (py "types") in
  let* is_locality := contains types (py "locality") in
  let* city :=
    (if is_locality then getitem component (py "long_name") else Return city) in
  let* types := getitem component (py "types") in
  let* is_area := contains types (py "administrative_area_level_1") in
  let* state :=
    (if is_area then getitem component (py "short_name") else Return state) in
  let* types := getitem component (py "types") in
  let* is_postal := contains types (py "postal_code") in
  let* zip_code :=
    (if is_postal then getitem component (py "long_name") else Return zip_code) in
  Return (city, state, zip_code).

(** [data["results"][0]] *)
Definition first_result (data : json) : outcome json :=
  let* results := getitem data (py "results") in
  getitem0 results.

(** The [try] block, lines 19-50. *)
Definition geocode_body {R : Repr} (env : maps_env) (address geocode_url : pystr)
  : outcome payload :=
  let* data := requests_get_json env geocode_url in
  let* status := getitem data (py "status") in
  let* found :=
    (if str_eq (py "OK") status
     then let* results := getitem data (py "results") in Return (truthy results)
     else Return false) in
  if found then
    let* r0 := first_result data in
    let* geometry := getitem r0 (py "geometry") in
    let* location := getitem geometry (py "location") in
    let* r0 := first_result data in
    let* place_id := getitem r0 (py "place_id") in
    let* r0 := first_result data in
    let* formatted_address := getitem r0 (py "formatted_address") in
    let* r0 := first_result data in
    let* components := getitem r0 (py "address_components") in
    let* items := iter components in
    let* vars := for_each scan_component items (JNull, JNull, JNull) in
    let '(city, state, zip_code) := vars in
    let* lat := getitem location (py "lat") in
    let* lng := getitem location (py "lng") in
    Return (Geocoded {| latitude := lat; longitude := lng;
                        place_id := place_id;
                        formatted_address := formatted_address;
                        city := city; state := state; zip_code := zip_code |})
  else
    let* status := get data (py "status") in
    let* error_message := get data (py "error_message") in
    Return (Error (py "Could not geocode address: " ++ address
                   ++ py ". Status: " ++ str status ++ py "."))%list.

(** The three [except] clauses, lines 51-59, tried in order. *)
Definition geocode_handler (address : pystr) (e : exn) : outcome payload :=
  if is_Timeout e then
    Return (Error (py "Geocoding API request timed out for address: "
                   ++ address ++ py "."))%list
  else if is_RequestException e then
    Return (Error (py "Geocoding API request failed: " ++ exn_str e ++ py "."))%list
  else
    Return (Error (py "An unexpected error occurred during geocoding: "
                   ++ exn_str e ++ py "."))%list.

(** The f-string of line 17. *)
Definition geocode_url (env : maps_env) (address : pystr) : pystr :=
  (py "https://maps.googleapis.com/maps/api/geocode/json?address="
   ++ address ++ py "&key=" ++ env_str (MAPS_API_KEY env))%list.

Definition get_geocode_and_place_id {R : Repr} (env : maps_env) (address : pystr)
  : outcome payload :=
  if negb (env_truthy (MAPS_API_KEY env)) then
    Return (Error (py "MAPS_API_KEY environment variable not set."))
  else
    try_except (geocode_body env address (geocode_url env address))
      (geocode_handler address).

(** *** Vocabulary of the specification *)

(** The call returned an [{"error": message}] payload. *)
Definition error_payload (o : outcome payload) : Prop :=
  exists msg, o = Return (Error msg).

(** [tag in component['types']], false when the test cannot be made. *)
Definition tagged (tag : pystr) (component : json) : bool :=
  match (let* types := getitem component (py "types") in contains types tag) with
  | Return b => b
  | Raise _ => false
  end.

(** A component as the geocoder documents it, as far as the loop reads it:
    a dict whose [types] supports [in], with a [long_name] when it is tagged
    locality or postal_code and a [short_name] when it is tagged
    administrative_area_level_1. *)
Definition readable (component : json) : bool :=
  match component with
  | JObj m =>
      match m !! py "types" with
      | Some (JArr _ | JStr _ | JObj _) =>
          implb (tagged (py "locality") component
                 || tagged (py "postal_code") component)
            (has_key m (py "long_name"))
          && implb (tagged (py "administrative_area_level_1") component)
               (has_key m (py "short_name"))
      | _ => false
      end
  | _ => false
  end.

(** The geocoder's envelope for a found address: status OK and a first
    result with coordinates, place id, formatted address and components. *)
Definition found_envelope (data lat lng pid fa : json) (components : list json)
  : Prop :=
  exists m r rest g loc,
    data = JObj m
    /\ m !! py "status" = Some (JStr (py "OK"))
    /\ m !! py "results" = Some (JArr (JObj r :: rest))
    /\ r !! py "geometry" = Some (JObj g)
    /\ g !! py "location" = Some (JObj loc)
    /\ loc !! py "lat" = Some lat
    /\ loc !! py "lng" = Some lng
    /\ r !! py "place_id" = Some pid
    /\ r !! py "formatted_address" = Some fa
    /\ r !! py "address_components" = Some (JArr components).

(** No component of [l] carries the tag. *)
Definition untagged (tag : pystr) (l : list json) : bool :=
  forallb (fun c => negb (tagged tag c)) l.

(** [component[k]], [None] when there is none. *)
Definition field (component : json) (k : pystr) : json :=
  match getitem component k with
  | Return v => v
  | Raise _ => JNull
  end.

(** What one turn of the loop does to the variable fed by [tag]. *)
Definition assign (tag k : pystr) (var component : json) : json :=
  if tagged tag component then field component k else var.

(** *** Examples *)

(** A configured service whose geocoder does not answer in time. *)
Definition stalled_env : maps_env :=
  {| MAPS_API_KEY := Some (py "key");
     requests_get_json := fun _ => Raise (Exn Timeout (py "Read timed out.")) |}.

Definition component (types : list pystr) (long_name short_name : pystr) : json :=
  JObj (<[py "types" := JArr (List.map JStr types)]>
        (<[py "long_name" := JStr long_name]>
         (<[py "short_name" := JStr short_name]> ∅))).

Definition springfield : json :=
  component [py "locality"; py "political"] (py "Springfield") (py "Springfield").
Definition shelbyville : json :=
  component [py "locality"] (py "Shelbyville") (py "Shelbyville").
Definition illinois : json :=
  component [py "administrative_area_level_1"] (py "Illinois") (py "IL").

(** A reply that tags two components as locality. *)
Definition two_localities : json :=
  JObj (<[py "status" := JStr (py "OK")]>
        (<[py "results" :=
             JArr [JObj (<[py "geometry" :=
                             JObj {[py "location" :=
                                      JObj (<[py "lat" := JInt 39]>
                                            {[py "lng" := JInt (-89)]})]}]>
                         (<[py "place_id" := JStr (py "ChIJ")]>
                          (<[py "formatted_address" := JStr (py "1 Main St")]>
                           {[py "address_components" :=
                               JArr [springfield; illinois; shelbyville]]})))]]> ∅)).

Definition two_localities_env : maps_env :=
  {| MAPS_API_KEY := Some (py "key");
     requests_get_json := fun _ => Return two_localities |}.

(** A reply whose only component is tagged locality and has no name. *)
Definition nameless_locality : json :=
  JObj (<[py "status" := JStr (py "OK")]>
        {[py "results" :=
            JArr [JObj (<[py "geometry" :=
                            JObj {[py "location" :=
                                     JObj (<[py "lat" := JInt 1]>
                                           {[py "lng" := JInt 2]})]}]>
                        (<[py "place_id" := JStr (py "P")]>
                         (<[py "formatted_address" := JStr (py "F")]>
                          {[py "address_components" :=
                              JArr [JObj {[py "types" :=
                                             JArr [JStr (py "locality")]]}]]})))]]}).

Definition nameless_locality_env : maps_env :=
  {| MAPS_API_KEY := Some (py "key");
     requests_get_json := fun _ => Return nameless_locality |}.

(** A geocoder that finds nothing. *)
Definition zero_results_env : maps_env :=
  {| MAPS_API_KEY := Some (py "key");
     requests_get_json := fun _ =>
       Return (JObj (<[py "status" := JStr (py "ZERO_RESULTS")]>
                     {[py "results" := JArr []]})) |}.

End MapsTools.

(** ** tools/bigquery_tools.py *)

Module BigqueryTools.

(** What the warehouse computes for the two SQL texts: its column values with
    the total order [ORDER BY] sorts them in ([NULL] and NaN have their place
    in it), the comparisons of a [WHERE] clause (true only when SQL's
    three-valued test is TRUE), and the functions [LOWER], [SUM] and [AVG]. *)
Class SqlEngine : Type := {
  number : Type;
  order_le : number -> number -> bool;
  order_le_total : forall a b, order_le a b = true \/ order_le b a = true;
  sql_le : number -> number -> bool;
  LOWER : pystr -> pystr;
  SUM : list number -> number;
  AVG : list number -> number
}.

Section Warehouse.
Context {E : SqlEngine}.

(** A row of [cre_data.commercial_comparables], in the order of its
    [SELECT] list. *)
Record comparable : Type := {
  col_property_type : pystr;
  col_price : number;
  col_beds : number;
  col_baths : number;
  col_sqft : number;
  col_address : pystr;
  col_city : pystr;
  col_state : pystr;
  col_zip_code : pystr;
  col_year_built : number
}.

(** A row of [census_bureau_acs.zip_code_2020_5yr], the columns read. *)
Record acs_row : Type := {
  geo_id : pystr;
  total_pop : number;
  median_income : number;
  households : number;
  median_rent : number
}.

(** The row of aggregates the first query selects. *)
Record demographics : Type := {
  total_population_2020 : number;
  median_household_income_2020 : number;
  total_households_2020 : number;
  median_rent_2020 : number
}.

(** One conjunct of the [WHERE] clause of the comparables query, with the
    Python value pasted into it. *)
Inductive condition : Type :=
| CityIs (city : pystr)              (* LOWER(city) = LOWER('{city}') *)
| StateIs (state : pystr)            (* LOWER(state) = LOWER('{state}') *)
| PropertyTypeIs (t : pystr)         (* LOWER(property_type) = LOWER('{property_type}') *)
| SqftAtLeast (min_sqft : number)    (* sqft >= {min_sqft} *)
| PriceAtMost (max_price : number).  (* price <= {max_price} *)

(** The two query texts the module sends. *)
Inductive sql_query : Type :=
| SelectDemographics (zip_code : pystr)
    (* SELECT sum.., avg.., sum.., avg.. FROM zip_code_2020_5yr
       WHERE geo_id = '{zip_code}' GROUP BY geo_id *)
| SelectComparables (where_ : list condition) (limit : Z).
    (* SELECT .. FROM commercial_comparables WHERE c1 AND .. AND cn
       ORDER BY price DESC LIMIT {limit} *)

(** The values are pasted into the query text unescaped (lines 31, 74 and
    77).  A string without quote, backslash or line break, pasted between
    quotes, is the SQL literal of itself; any other string rewrites the
    query text around it. *)
Definition sql_plain (s : pystr) : bool :=
  forallb (fun c => negb ((c =? 39) || (c =? 92) || (c =? 10) || (c =? 13))%N) s.

Definition plain_condition (c : condition) : bool :=
  match c with
  | CityIs s | StateIs s | PropertyTypeIs s => sql_plain s
  | SqftAtLeast _ | PriceAtMost _ => true
  end.

(** The state of the warehouse: the two tables; the queries that fail
    (credentials, permissions, network, a text the engine cannot read) with
    the exception the client raises; the exception for a [LIMIT] the engine
    rejects; and, for a query text rewritten by a pasted value, the rows its
    new [WHERE] clause selects and the groups it yields, which can be any. *)
Record warehouse : Type := {
  commercial_comparables : list comparable;
  zip_code_2020_5yr : list acs_row;
  failure : sql_query -> option exn;
  rejected : sql_query -> exn;
  rewritten_comparables : list condition -> list comparable;
  rewritten_demographics : pystr -> list demographics
}.

(** What a conjunct with a plain value tests on a row. *)
Definition holds (c : condition) (r : comparable) : bool :=
  match c with
  | CityIs city => bool_decide (LOWER (col_city r) = LOWER city)
  | StateIs state => bool_decide (LOWER (col_state r) = LOWER state)
  | PropertyTypeIs t => bool_decide (LOWER (col_property_type r) = LOWER t)
  | SqftAtLeast min_sqft => sql_le min_sqft (col_sqft r)
  | PriceAtMost max_price => sql_le (col_price r) max_price
  end.

(** [ORDER BY price DESC]: insertion into a list already in descending
    order, repeated from the end of the table. *)
Fixpoint insert_desc (r : comparable) (l : list comparable) : list comparable :=
  match l with
  | [] => [r]
  | x :: l' =>
      if order_le (col_price x) (col_price r) then r :: l
      else x :: insert_desc r l'
  end.

Definition order_by_price_desc (l : list comparable) : list comparable :=
  fold_right insert_desc [] l.

(** [GROUP BY geo_id] after [WHERE geo_id = zip]: one group when a row
    matches, none otherwise. *)
Definition aggregate (rows : list acs_row) : list demographics :=
  match rows with
  | [] => []
  | _ :: _ =>
      [ {| total_population_2020 := SUM (List.map total_pop rows);
           median_household_income_2020 := AVG (List.map median_income rows);
           total_households_2020 := SUM (List.map households rows);
           median_rent_2020 := AVG (List.map median_rent rows) |} ]
  end.

(** [[dict(row) for row in client.query(query)]] for the first query:
    the client raises when the query fails, and yields the selected rows
    otherwise.  With a plain zip code they are the group of the rows whose
    [geo_id] is the zip code. *)
Definition run_demographics (w : warehouse) (zip_code : pystr)
  : outcome (list demographics) :=
  match failure w (SelectDemographics zip_code) with
  | Some e => Raise e
  | None =>
      if sql_plain zip_code then
        Return (aggregate
                  (List.filter (fun r => bool_decide (geo_id r = zip_code))
                     (zip_code_2020_5yr w)))
      else Return (rewritten_demographics w zip_code)
  end.

(** The rows the [WHERE] clause selects: with plain values, the rows of
    the table on which every conjunct holds. *)
Definition selected (w : warehouse) (where_ : list condition) : list comparable :=
  if forallb plain_condition where_ then
    List.filter (fun r => forallb (fun c => holds c r) where_)
      (commercial_comparables w)
  else rewritten_comparables w where_.

(** The same for the second query: [WHERE] selects rows,
    [ORDER BY price DESC] sorts them, [LIMIT] keeps the first [limit] of
    them.  The engine rejects a negative [LIMIT]. *)
Definition run_comparables (w : warehouse) (where_ : list condition) (limit : Z)
  : outcome (list comparable) :=
  match failure w (SelectComparables where_ limit) with
  | Some e => Raise e
  | None =>
      if (limit <? 0)%Z then Raise (rejected w (SelectComparables where_ limit))
      else
        Return (firstn (Z.to_nat limit) (order_by_price_desc (selected w where_)))
  end.

(** The returned dict, by its key and the kind of its value. *)
Inductive payload : Type :=
| Error (msg : pystr)                           (* {"error": msg} *)
| Demographics (row : demographics)             (* {"demographics": results[0]} *)
| NoDemographics (marker : pystr)               (* {"demographics": "No data ..."} *)
| ComparableProperties (rows : list comparable) (* {"comparable_properties": results} *)
| NoComparableProperties (marker : pystr).      (* {"comparable_properties": "No ..."} *)

(** A call of a tool: what it returns or raises, and the queries it sent to
    the warehouse, in order. *)
Record call : Type := { result : outcome payload; issued : list sql_query }.

Definition get_demographics_by_zip (w : warehouse) (zip_code : pystr) : call :=
  if negb (str_truthy zip_code) then
    {| result := Return (Error (py "Zip code is required for demographic query."));
       issued := [] |}
  else
    let query := SelectDemographics zip_code in
    {| result :=
         try_except
           (let* results := run_demographics w zip_code in
            match results with
            | row :: _ => Return (Demographics row)
            | [] =>
                Return (NoDemographics
                          (py "No data found for this zip code in public datasets."))
            end)
           (fun e =>
              Return (Error (py "BigQuery demographic query failed: "
                             ++ exn_str e ++ py "."))%list);
       issued := [query] |}.

Definition find_comparable_properties_in_bq (w : warehouse)
    (city state : pystr) (property_type : option pystr)
    (min_sqft max_price : option number) (limit : Z) : call :=
  if negb (str_truthy city) || negb (str_truthy state) then
    {| result := Return (Error (py "City and State are required to find comparables."));
       issued := [] |}
  else
    let where_ := [CityIs city; StateIs state] in
    let where_ :=
      match property_type with
      | Some t => if str_truthy t then where_ ++ [PropertyTypeIs t] else where_
      | None => where_
      end%list in
    let where_ :=
      match min_sqft with
      | Some n => where_ ++ [SqftAtLeast n]
      | None => where_
      end%list in
    let where_ :=
      match max_price with
      | Some n => where_ ++ [PriceAtMost n]
      | None => where_
      end%list in
    let query := SelectComparables where_ limit in
    {| result :=
         try_except
           (let* results := run_comparables w where_ limit in
            match results with
            | _ :: _ => Return (ComparableProperties results)
            | [] =>
                Return (NoComparableProperties
                          (py "No comparable properties found for the given criteria."))
            end)
           (fun e =>
              Return (Error (py "BigQuery comparables query failed: "
                             ++ exn_str e ++ py "."))%list);
       issued := [query] |}.

(** *** Vocabulary of the specification *)

(** The call returned an [{"error": message}] payload. *)
Definition error_payload (c : call) : Prop :=
  exists msg, result c = Return (Error msg).

(** [a] may stand before [b] in descending order of price: the price of
    [b] is not above that of [a]. *)
Definition price_desc (a b : comparable) : Prop :=
  order_le (col_price b) (col_price a) = true.

Definition descending_by_price (rows : list comparable) : Prop :=
  Sorted price_desc rows.

(** The conjuncts the optional arguments add to the [WHERE] clause, in the
    order of lines 76-81. *)
Definition optional_conditions (property_type : option pystr)
    (min_sqft max_price : option number) : list condition :=
  (match property_type with
   | Some t => if str_truthy t then [PropertyTypeIs t] else []
   | None => []
   end
   ++ match min_sqft with Some n => [SqftAtLeast n] | None => [] end
   ++ match max_price with Some n => [PriceAtMost n] | None => [] end)%list.

(** The pasted strings of a call are plain. *)
Definition plain_arguments (city state : pystr) (property_type : option pystr)
  : Prop :=
  sql_plain city = true /\ sql_plain state = true
  /\ forall t, property_type = Some t -> sql_plain t = true.

(** The row passes the whole [WHERE] clause. *)
Definition passes (where_ : list condition) (r : comparable) : bool :=
  forallb (fun c => holds c r) where_.

End Warehouse.

(** *** Examples *)

(** An engine over integer columns with ASCII [LOWER], to run examples. *)
Definition ascii_lower (s : pystr) : pystr :=
  List.map (fun c => if ((65 <=? c) && (c <=? 90))%N then (c + 32)%N else c) s.

Definition integer_engine : SqlEngine :=
  {| number := Z;
     order_le := Z.leb;
     order_le_total := fun a b =>
       match Zle_bool_total a b with
       | left H => or_introl H
       | right H => or_intror H
       end;
     sql_le := Z.leb;
     LOWER := ascii_lower;
     SUM := fun l => fold_right Z.add 0%Z l;
     AVG := fun l => (fold_right Z.add 0%Z l / Z.of_nat (length l))%Z |}.

Definition office (city state : pystr) (price : Z) : @comparable integer_engine :=
  @Build_comparable integer_engine (py "Office") price 0%Z 2%Z 5000%Z
    (py "500 Elm St") city state (py "75201") 1999%Z.

(** A warehouse with the given tables that answers every query; a pasted
    value that rewrites the query makes it select nothing. *)
Definition serving (comparables : list (@comparable integer_engine))
    (census_rows : list (@acs_row integer_engine)) : @warehouse integer_engine :=
  @Build_warehouse integer_engine comparables census_rows (fun _ => None)
    (fun _ => Exn OtherException (py "400 Syntax error")) (fun _ => [])
    (fun _ => []).

(** Comparables in Dallas only. *)
Definition dallas_only : @warehouse integer_engine :=
  serving
    [office (py "Dallas") (py "TX") 900000; office (py "Dallas") (py "TX") 750000]
    [].

(** Seven offices in Austin, two of them at the same price. *)
Definition austin_offices : @warehouse integer_engine :=
  serving
    (List.map (office (py "Austin") (py "TX"))
       [300000; 900000; 500000; 900000; 100000; 700000; 200000]%Z)
    [].

(** A warehouse on which a rewritten comparables query selects every row
    of the table. *)
Definition wide_open : @warehouse integer_engine :=
  @Build_warehouse integer_engine
    [office (py "Dallas") (py "TX") 900000] [] (fun _ => None)
    (fun _ => Exn OtherException (py "400 Syntax error"))
    (fun _ => [office (py "Dallas") (py "TX") 900000]) (fun _ => []).

End BigqueryTools.

(** ** main.py *)

Module Main.

(** A segment of the model's reply, by how the tests of lines 118-124 come
    out on it.  [TextPart]: [hasattr(part, 'text')] holds.
    [FunctionCallPart]: it does not and [hasattr(part, 'function_call')]
    holds; [name] is the outcome of evaluating [part.function_call.name],
    which raises when the function call has no name.  [OtherPart]: neither
    test holds, the case the [if]/[elif] leaves without a branch. *)
Inductive part : Type :=
| TextPart (text : pystr)
| FunctionCallPart (name : outcome pystr)
| OtherPart.

(** [response.candidates[i].content.parts]; a candidate's [content] may be
    falsy ([None]). *)
Record content : Type := { parts : list part }.
Record candidate : Type := { candidate_content : option content }.
Record response : Type := { candidates : list candidate }.

(** The generative model: the outcome of [model.generate_content] for a
    prompt, the tools being registered. *)
Record agent : Type := { generate_content : pystr -> outcome response }.

(** The body given to [jsonify]. *)
Inductive body : Type :=
| ErrorBody (error : pystr)       (* {"error": ...} *)
| MemoBody (deal_memo : pystr).   (* {"deal_memo": ...} *)

(** [prompt_template], before and after its placeholder. *)
Definition prompt_prefix : pystr := py "
        You are an expert commercial real estate loan analysis agent named 'CRE-Analyst-AI'. Your task is to generate
        a comprehensive deal memo for the following property, leveraging your available tools to gather all necessary information.

        Property for Analysis: ".

Definition prompt_suffix : pystr :=
  (py "

        Follow these steps meticulously, using your tools where appropriate:

        1.  **Validate Address:** First, use your `validate_address` tool to perform a basic check on the provided address. If the address is deemed invalid, immediately stop and return an error message explaining why.
        2.  **Gather Property Details:** If the address is valid, use your `get_geocode_and_place_id` tool to obtain its precise geographic coordinates (latitude, longitude), Place ID, and parsed address components (city, state, zip_code). Then, use `get_aerial_view_insights` to get any available aerial information or a visual inspection link.
        3.  **Analyze Demographics:** Use the `get_demographics_by_zip` tool (with the zip code from geocoding) to gather key demographic statistics for the area from BigQuery public datasets.
        4.  **Find Comparables:** Use the `find_comparable_properties_in_bq` tool (with the city and state from geocoding) to retrieve up to 5 relevant comparable commercial properties from your custom BigQuery dataset. Infer a broad 'property_type' if possible, or state if it's unknown.
        5.  **Synthesize and Generate Memo:** Once all information is gathered, synthesize it into a professional, data-driven, and actionable deal memo. Structure the memo with the following sections, ensuring all relevant gathered data is incorporated:

            *   **Executive Summary:** A concise overview summarizing the property, key market insights, potential risks, and a high-level valuation perspective.
            *   **Property Overview:** Detailed information about the subject property including its formatted address, geographic coordinates, Google Place ID, and any aerial view insights or links.
            *   **Market and Demographic Analysis:** Key demographic data for the area (e.g., total population, median household income, housing units, median rent). Discuss the implications of these trends for the commercial real estate market.
            *   **Risk Assessment:** Identify potential risks based on location, market data (e.g., population decline, low income), or any insights from aerial views (e.g., proximity to flood zones - if such tools were integrated).
            *   **Collateral Valuation Insights:** Present the findings from the comparable properties search. Discuss average prices, square footage, and how the subject property compares to these. Provide insights that support a valuation perspective (e.g., "
   ++ [34%N] ++ py "based on comps, the property's value appears to be in the range of X to Y"
   ++ [34%N] ++ py ").

        If any tool call fails, mention the failure in the memo and explain what data could not be retrieved.
        ")%list.

(** [prompt_template.format(property_address=property_address)] *)
Definition final_prompt {R : Repr} (property_address : json) : pystr :=
  (prompt_prefix ++ str property_address ++ prompt_suffix)%list.

(** One turn of the loop over the parts, lines 118-124. *)
Definition append_part (generated_memo : pystr) (p : part) : outcome pystr :=
  match p with
  | TextPart text => Return (generated_memo ++ text)%list
  | FunctionCallPart name =>
      let* name := name in
      Return (generated_memo
              ++ [10; 10]%N
              ++ py "**[Warning: Agent attempted to call a tool in final response unexpectedly: "
              ++ name ++ py "]**" ++ [10; 10]%N)%list
  | OtherPart => Return generated_memo
  end.

(** [for part in parts: ...], from the memo built so far. *)
Fixpoint for_each_part (segments : list part) (generated_memo : pystr)
  : outcome pystr :=
  match segments with
  | [] => Return generated_memo
  | p :: rest =>
      let* generated_memo := append_part generated_memo p in
      for_each_part rest generated_memo
  end.

(** Lines 115-124: the memo extracted from the reply. *)
Definition extract_memo (r : response) : outcome pystr :=
  match candidates r with
  | c :: _ =>
      match candidate_content c with
      | Some ct => for_each_part (parts ct) []
      | None => Return []
      end
  | [] => Return []
  end.

(** The [try] block of [analyze_property]; [data] is what
    [request.get_json(silent=True)] returned ([JNull] for [None]). *)
Definition analyze_property_body {R : Repr} (model : agent) (data : json)
  : outcome (body * Z) :=
  if negb (truthy data) then
    Return (ErrorBody (py "Invalid JSON payload or empty request body."), 400%Z)
  else
    let* property_address := get data (py "address") in
    if negb (truthy property_address) then
      Return (ErrorBody (py "Missing 'address' in request payload."), 400%Z)
    else
      let* response := generate_content model (final_prompt property_address) in
      let* generated_memo := extract_memo response in
      if negb (str_truthy (strip generated_memo)) then
        Return (ErrorBody
                  (py "Agent failed to generate a comprehensive memo. Gemini's output was empty."),
                500%Z)
      else
        Return (MemoBody generated_memo, 200%Z).

(** The view function: the [try] block under its [except Exception]. *)
Definition analyze_property {R : Repr} (model : agent) (data : json)
  : outcome (body * Z) :=
  try_except (analyze_property_body model data)
    (fun e => Return (ErrorBody (exn_str e), 500%Z)).

(** *** Vocabulary of the specification *)

(** The segments of the reply the loop runs over. *)
Definition reply_parts (r : response) : list part :=
  match candidates r with
  | c :: _ =>
      match candidate_content c with
      | Some ct => parts ct
      | None => []
      end
  | [] => []
  end.

Definition text_of (p : part) : pystr :=
  match p with
  | TextPart text => text
  | _ => []
  end.

(** The concatenated text segments of the reply. *)
Definition concatenated_text (r : response) : pystr :=
  List.concat (List.map text_of (reply_parts r)).

Definition is_function_call (p : part) : bool :=
  match p with
  | FunctionCallPart _ => true
  | _ => false
  end.

(** The two 400 responses and the 500 response for an empty memo. *)
Definition invalid_json : body * Z :=
  (ErrorBody (py "Invalid JSON payload or empty request body."), 400%Z).

Definition missing_address : body * Z :=
  (ErrorBody (py "Missing 'address' in request payload."), 400%Z).

Definition empty_memo : body * Z :=
  (ErrorBody
     (py "Agent failed to generate a comprehensive memo. Gemini's output was empty."),
   500%Z).

(** The warning marker for a function call, line 124. *)
Definition warning_marker (name : pystr) : pystr :=
  ([10; 10]%N
   ++ py "**[Warning: Agent attempted to call a tool in final response unexpectedly: "
   ++ name ++ py "]**" ++ [10; 10]%N)%list.

(** What one segment adds to the memo: its text, or the warning marker with
    the name of the function called. *)
Definition contribution (p : part) : pystr :=
  match p with
  | TextPart text => text
  | FunctionCallPart (Return name) => warning_marker name
  | FunctionCallPart (Raise _) => []
  | OtherPart => []
  end.

(** The generated memo in the words of the specification: the
    concatenation, in order, of the text segments and of the warning
    markers of the function-call segments. *)
Definition memo_of_reply (r : response) : pystr :=
  List.concat (List.map contribution (reply_parts r)).

(** The name of the function call, if the segment is one, can be read. *)
Definition name_readable (p : part) : bool :=
  match p with
  | FunctionCallPart (Raise _) => false
  | _ => true
  end.

(** *** Examples *)

Definition reply_of (segments : list part) : response :=
  {| candidates := [ {| candidate_content := Some {| parts := segments |} |} ] |}.

(** A model whose final reply is a request to call a tool and no text. *)
Definition tool_call_reply : response :=
  reply_of [FunctionCallPart (Return (py "get_demographics_by_zip"))].

Definition calling_agent : agent :=
  {| generate_content := fun _ => Return tool_call_reply |}.

(** A model that answers in two text segments. *)
Definition writing_agent : agent :=
  {| generate_content := fun _ =>
       Return (reply_of [TextPart (py "Executive Summary: "); TextPart (py "sound.")]) |}.

Definition cupertino : json :=
  JObj {[ py "address" := JStr (py "1 Infinite Loop, Cupertino, CA 95014") ]}.

(** A model whose service is down. *)
Definition failing_agent : agent :=
  {| generate_content := fun _ =>
       Raise (Exn OtherException (py "503 Service Unavailable")) |}.


(** A model whose reply holds some text and a function call without a
    name. *)
Definition nameless_call_agent : agent :=
  {| generate_content := fun _ =>
       Return (reply_of
                 [TextPart (py "memo");
                  FunctionCallPart
                    (Raise (Exn AttributeError
                              (py "'NoneType' object has no attribute 'name'")))]) |}.

End Main.

(** * Theorems *)

Import ValidationTools.

(** ** Strings *)

Lemma lstrip_nil_iff (s : pystr) : lstrip s = [] <-> blank s = true.
Proof.
  induction s as [|c s IH]; simpl; [tauto|].
  destruct (isspace c); simpl; [exact IH|].
  split; intros H; discriminate H.
Qed.

Lemma blank_app (s t : pystr) : blank (s ++ t) = blank s && blank t.
Proof. apply forallb_app. Qed.

Lemma blank_rev (s : pystr) : blank (rev s) = blank s.
Proof.
  induction s as [|c s IH]; simpl; [reflexivity|].
  rewrite blank_app, IH. simpl. rewrite andb_true_r. apply andb_comm.
Qed.

Lemma lstrip_suffix (s : pystr) : exists p, s = (p ++ lstrip s)%list /\ blank p = true.
Proof.
  induction s as [|c s [p [Hp Hb]]]; simpl.
  - exists []. split; reflexivity.
  - destruct (isspace c) eqn:Hc.
    + exists (c :: p). simpl. rewrite Hc, Hb. split; [congruence | reflexivity].
    + exists []. split; reflexivity.
Qed.

Lemma blank_lstrip (s : pystr) : blank (lstrip s) = blank s.
Proof.
  destruct (lstrip_suffix s) as [p [Hp Hb]].
  rewrite Hp at 2. rewrite blank_app, Hb. reflexivity.
Qed.

(** [not s.strip()] holds exactly for the blank strings. *)
Lemma strip_truthy (s : pystr) : str_truthy (strip s) = negb (blank s).
Proof.
  unfold strip, rstrip.
  destruct (blank s) eqn:Hb.
  - apply lstrip_nil_iff in Hb. rewrite Hb. reflexivity.
  - simpl. destruct (rev (lstrip (rev (lstrip s)))) as [|c r] eqn:Hr; [|reflexivity].
    exfalso.
    assert (Hn : lstrip (rev (lstrip s)) = []).
    { rewrite <- (rev_involutive (lstrip (rev (lstrip s)))), Hr. reflexivity. }
    apply lstrip_nil_iff in Hn. rewrite blank_rev, blank_lstrip in Hn. congruence.
Qed.

(** ** tools/validation_tools.py: theorems *)

(** C2. [validate_address] returns valid=false together with a non-empty
    reason exactly when the address is empty or shorter than 10 characters,
    and valid=true for every address of 10 characters or more, whatever its
    length or content. *)
Theorem validate_address_length_gate (address : pystr) :
  ((valid (validate_address address) = false
    /\ reason (validate_address address) <> [])
   <-> (address = [] \/ (length address < 10)%nat))
  /\ ((10 <= length address)%nat -> valid (validate_address address) = true).
Proof.
  unfold validate_address.
  destruct address as [|c s]; simpl negb; cbv iota.
  - split; [|simpl; lia]. simpl. split; [auto | intros _; split; [reflexivity | discriminate]].
  - destruct (Nat.ltb_spec (length (c :: s)) 10) as [Hlt | Hge].
    + split; [|lia]. simpl valid; simpl reason.
      split; [auto | intros _; split; [reflexivity | discriminate]].
    + split; [|reflexivity]. simpl valid.
      split; [intros [H _]; discriminate H | intros [H | H]; [discriminate H | lia]].
Qed.

Lemma validate_address_length_gate_witness :
  valid (validate_address (py "123 Main St, Anytown, CA 90210")) = true
  /\ valid (validate_address (py "1 Main St")) = false.
Proof.
  split.
  - apply (proj2 (validate_address_length_gate (py "123 Main St, Anytown, CA 90210"))).
    simpl. lia.
  - apply (proj2 (proj1 (validate_address_length_gate (py "1 Main St")))).
    right. simpl. lia.
Defined.

(** ** tools/maps_tools.py: theorems *)

Module MapsToolsFacts.
Import MapsTools.

Lemma geocode_handler_error (address : pystr) (e : exn) :
  error_payload (geocode_handler address e).
Proof.
  unfold geocode_handler, error_payload.
  destruct (is_Timeout e); [eauto|].
  destruct (is_RequestException e); eauto.
Qed.

(** Either the call returns an error payload, or the credential is set and
    the [try] block ran to its [return] of the success dict. *)
Lemma get_geocode_cases {R : Repr} (env : maps_env) (address : pystr) :
  error_payload (get_geocode_and_place_id env address)
  \/ exists r,
       geocode_body env address (geocode_url env address) = Return (Geocoded r)
       /\ get_geocode_and_place_id env address = Return (Geocoded r).
Proof.
  unfold get_geocode_and_place_id.
  destruct (env_truthy (MAPS_API_KEY env)); simpl negb; cbv iota.
  - destruct (geocode_body env address (geocode_url env address)) as [[msg|r]|e] eqn:Hb;
      unfold try_except.
    + left. exists msg. reflexivity.
    + right. exists r. split; reflexivity.
    + left. apply geocode_handler_error.
  - left. eexists. reflexivity.
Qed.

Lemma getitem_Return_dict (v : json) (k : pystr) (x : json) :
  getitem v k = Return x -> exists m, v = JObj m /\ m !! k = Some x.
Proof.
  destruct v as [| | | |s|l|m]; try discriminate.
  unfold getitem. intros H. exists m. split; [reflexivity|].
  destruct (m !! k); [congruence | discriminate].
Qed.

(** The [else] branch of the [try] block (lines 49-50) returns an error
    payload for every dict. *)
Lemma geocode_not_found {R : Repr} (address : pystr) (m : gmap pystr json) :
  exists msg,
    (let* status := get (JObj m) (py "status") in
     let* error_message := get (JObj m) (py "error_message") in
     Return (Error (py "Could not geocode address: " ++ address
                    ++ py ". Status: " ++ str status ++ py ".")))%list
    = Return (Error msg).
Proof. unfold get, bind. eexists. reflexivity. Qed.

(** C3. [get_geocode_and_place_id] never raises: every call returns a
    payload, and in each failure mode (credential unset, remote status not
    OK, empty remote result list, request timeout, transport failure, any
    other exception inside the [try] block) the payload is
    [{"error": message}]. *)
Theorem get_geocode_and_place_id_never_raises {R : Repr}
    (env : maps_env) (address : pystr) :
  (exists p, get_geocode_and_place_id env address = Return p)
  /\ (env_truthy (MAPS_API_KEY env) = false ->
      error_payload (get_geocode_and_place_id env address))
  /\ (forall data status,
        requests_get_json env (geocode_url env address) = Return data ->
        getitem data (py "status") = Return status ->
        str_eq (py "OK") status = false ->
        error_payload (get_geocode_and_place_id env address))
  /\ (forall data,
        requests_get_json env (geocode_url env address) = Return data ->
        getitem data (py "results") = Return (JArr []) ->
        error_payload (get_geocode_and_place_id env address))
  /\ (forall e,
        requests_get_json env (geocode_url env address) = Raise e ->
        is_Timeout e = true ->
        error_payload (get_geocode_and_place_id env address))
  /\ (forall e,
        requests_get_json env (geocode_url env address) = Raise e ->
        is_RequestException e = true ->
        error_payload (get_geocode_and_place_id env address))
  /\ (forall e,
        geocode_body env address (geocode_url env address) = Raise e ->
        error_payload (get_geocode_and_place_id env address)).
Proof.
  assert (Hbody :
            (forall r, geocode_body env address (geocode_url env address)
                       <> Return (Geocoded r)) ->
            error_payload (get_geocode_and_place_id env address)).
  { intros Hno. destruct (get_geocode_cases env address) as [H | [r [Hb _]]];
      [exact H | exfalso; exact (Hno r Hb)]. }
  repeat split.
  - destruct (get_geocode_cases env address) as [[msg H] | [r [_ H]]]; eauto.
  - intros Hkey. unfold get_geocode_and_place_id. rewrite Hkey.
    eexists. reflexivity.
  - intros data status Hreq Hst Hne. apply Hbody. intros r.
    unfold geocode_body. rewrite Hreq. cbn [bind]. rewrite Hst. cbn [bind].
    rewrite Hne. cbn [bind].
    apply getitem_Return_dict in Hst. destruct Hst as [m [-> _]].
    destruct (geocode_not_found address m) as [msg ->]. discriminate.
  - intros data Hreq Hres. apply Hbody. intros r.
    unfold geocode_body. rewrite Hreq. cbn [bind].
    destruct (getitem_Return_dict _ _ _ Hres) as [m [-> Hm]].
    destruct (getitem (JObj m) (py "status")) as [st|e]; cbn [bind];
      [|discriminate].
    rewrite Hres.
    destruct (str_eq (py "OK") st); cbn [bind truthy];
      destruct (geocode_not_found address m) as [msg ->]; discriminate.
  - intros e Hreq _. apply Hbody. intros r.
    unfold geocode_body. rewrite Hreq. discriminate.
  - intros e Hreq _. apply Hbody. intros r.
    unfold geocode_body. rewrite Hreq. discriminate.
  - intros e Hb. apply Hbody. intros r. rewrite Hb. discriminate.
Qed.

Lemma get_geocode_and_place_id_never_raises_witness :
  error_payload
    (get_geocode_and_place_id (R := opaque_repr) stalled_env (py "1 Infinite Loop")).
Proof.
  apply (get_geocode_and_place_id_never_raises (R := opaque_repr) stalled_env
           (py "1 Infinite Loop"))
    with (e := Exn Timeout (py "Read timed out.")); reflexivity.
Defined.

(** The credential error, the timeout error and the transport error carry
    their own messages. *)
Lemma geocode_error_messages {R : Repr} (env : maps_env) (address : pystr) (e : exn) :
  env_truthy (MAPS_API_KEY env) = true ->
  requests_get_json env (geocode_url env address) = Raise e ->
  get_geocode_and_place_id env address
  = Return (Error
      (if is_Timeout e
       then py "Geocoding API request timed out for address: " ++ address ++ py "."
       else if is_RequestException e
       then py "Geocoding API request failed: " ++ exn_str e ++ py "."
       else py "An unexpected error occurred during geocoding: "
            ++ exn_str e ++ py "."))%list.
Proof.
  intros Hkey Hreq. unfold get_geocode_and_place_id. rewrite Hkey.
  unfold geocode_body. rewrite Hreq. cbn [negb bind try_except].
  unfold geocode_handler.
  destruct (is_Timeout e); [reflexivity|].
  destruct (is_RequestException e); reflexivity.
Qed.

Lemma tagged_contains (m : gmap pystr json) (t : json) (tag : pystr) :
  m !! py "types" = Some t ->
  match t with JArr _ | JStr _ | JObj _ => True | _ => False end ->
  contains t tag = Return (tagged tag (JObj m)).
Proof.
  intros Ht Hk. unfold tagged, getitem. rewrite Ht. cbn [bind].
  destruct t; try contradiction; reflexivity.
Qed.

Lemma has_key_lookup (m : gmap pystr json) (k : pystr) :
  has_key m k = true -> getitem (JObj m) k = Return (field (JObj m) k).
Proof.
  unfold has_key, field, getitem. destruct (m !! k); [reflexivity | discriminate].
Qed.

(** One turn of the loop on a readable component. *)
Lemma scan_component_readable (city state zip_code c : json) :
  readable c = true ->
  scan_component (city, state, zip_code) c
  = Return (assign (py "locality") (py "long_name") city c,
            assign (py "administrative_area_level_1") (py "short_name") state c,
            assign (py "postal_code") (py "long_name") zip_code c).
Proof.
  destruct c as [| | | | | |m]; try discriminate.
  unfold readable. destruct (m !! py "types") as [t|] eqn:Ht; [|discriminate].
  intros H.
  assert (Hkind : match t with JArr _ | JStr _ | JObj _ => True | _ => False end).
  { destruct t; trivial; discriminate. }
  assert (H' : implb (tagged (py "locality") (JObj m)
                      || tagged (py "postal_code") (JObj m))
                 (has_key m (py "long_name"))
               && implb (tagged (py "administrative_area_level_1") (JObj m))
                    (has_key m (py "short_name")) = true).
  { destruct t; try contradiction; exact H. }
  clear H. apply andb_prop in H'. destruct H' as [Hlong Hshort].
  unfold scan_component.
  assert (Hty : getitem (JObj m) (py "types") = Return t).
  { unfold getitem. rewrite Ht. reflexivity. }
  rewrite Hty. cbn [bind].
  rewrite !(tagged_contains m t _ Ht Hkind). cbn [bind].
  unfold assign.
  destruct (tagged (py "locality") (JObj m)) eqn:T1;
    destruct (tagged (py "administrative_area_level_1") (JObj m)) eqn:T2;
    destruct (tagged (py "postal_code") (JObj m)) eqn:T3;
    cbn [orb implb] in Hlong, Hshort;
    repeat (first [ rewrite (has_key_lookup m (py "long_name")) by exact Hlong
                  | rewrite (has_key_lookup m (py "short_name")) by exact Hshort ]);
    reflexivity.
Qed.

(** The whole loop on readable components: each variable is folded on its
    own. *)
Lemma for_each_readable (comps : list json) :
  forall city state zip_code,
    forallb readable comps = true ->
    for_each scan_component comps (city, state, zip_code)
    = Return (fold_left (assign (py "locality") (py "long_name")) comps city,
              fold_left (assign (py "administrative_area_level_1") (py "short_name"))
                comps state,
              fold_left (assign (py "postal_code") (py "long_name")) comps zip_code).
Proof.
  induction comps as [|c comps IH]; intros city state zip_code H.
  - reflexivity.
  - simpl in H. apply andb_prop in H. destruct H as [Hc Hrest].
    cbn [for_each]. rewrite (scan_component_readable _ _ _ _ Hc). cbn [bind].
    rewrite IH by exact Hrest. reflexivity.
Qed.

Lemma fold_assign_untagged (tag k : pystr) (post : list json) :
  forall var, untagged tag post = true -> fold_left (assign tag k) post var = var.
Proof.
  induction post as [|c post IH]; intros var H; [reflexivity|].
  simpl in H. apply andb_prop in H. destruct H as [Hc Hpost].
  simpl. unfold assign at 2. destruct (tagged tag c); [discriminate|].
  apply IH. exact Hpost.
Qed.

(** The last tagged component fixes the variable, whatever came before. *)
Lemma fold_assign_last (tag k : pystr) (pre post : list json) (c var : json) :
  tagged tag c = true -> untagged tag post = true ->
  fold_left (assign tag k) (pre ++ c :: post) var = field c k.
Proof.
  intros Hc Hpost. rewrite fold_left_app. simpl.
  rewrite fold_assign_untagged by exact Hpost.
  unfold assign. rewrite Hc. reflexivity.
Qed.

Lemma readable_field (c : json) (tag k : pystr) :
  readable c = true -> tagged tag c = true ->
  (tag = py "locality" \/ tag = py "postal_code") /\ k = py "long_name"
  \/ tag = py "administrative_area_level_1" /\ k = py "short_name" ->
  getitem c k = Return (field c k).
Proof.
  intros Hr Ht Hk. destruct c as [| | | | | |m]; try discriminate.
  apply has_key_lookup. unfold readable in Hr.
  destruct (m !! py "types") as [t|]; [|discriminate].
  assert (H : implb (tagged (py "locality") (JObj m)
                     || tagged (py "postal_code") (JObj m))
                (has_key m (py "long_name"))
              && implb (tagged (py "administrative_area_level_1") (JObj m))
                   (has_key m (py "short_name")) = true).
  { destruct t; try discriminate; exact Hr. }
  apply andb_prop in H. destruct H as [H1 H2].
  destruct Hk as [[[-> | ->] ->] | [-> ->]].
  - rewrite Ht in H1. exact H1.
  - rewrite Ht, orb_true_r in H1. exact H1.
  - rewrite Ht in H2. exact H2.
Qed.

(** C8. Of several components tagged with the same type, the last one in
    list order determines the extracted value: [city] and [zip_code] are its
    [long_name], [state] is its [short_name]. *)
Theorem last_tagged_component_wins {R : Repr} (env : maps_env) (address : pystr)
    (data lat lng pid fa : json) (comps : list json) :
  env_truthy (MAPS_API_KEY env) = true ->
  requests_get_json env (geocode_url env address) = Return data ->
  found_envelope data lat lng pid fa comps ->
  forallb readable comps = true ->
  exists r,
    get_geocode_and_place_id env address = Return (Geocoded r)
    /\ (forall pre c post,
          comps = (pre ++ c :: post)%list ->
          tagged (py "locality") c = true ->
          untagged (py "locality") post = true ->
          getitem c (py "long_name") = Return (city r))
    /\ (forall pre c post,
          comps = (pre ++ c :: post)%list ->
          tagged (py "administrative_area_level_1") c = true ->
          untagged (py "administrative_area_level_1") post = true ->
          getitem c (py "short_name") = Return (state r))
    /\ (forall pre c post,
          comps = (pre ++ c :: post)%list ->
          tagged (py "postal_code") c = true ->
          untagged (py "postal_code") post = true ->
          getitem c (py "long_name") = Return (zip_code r)).
Proof.
  intros Hkey Hreq (m & r0 & rest & g & loc & -> & Hst & Hres & Hg & Hloc & Hlat
                    & Hlng & Hpid & Hfa & Hcomps) Hread.
  eexists. split.
  - unfold get_geocode_and_place_id. rewrite Hkey. cbn [negb].
    unfold geocode_body. rewrite Hreq. cbn [bind].
    unfold first_result, getitem. rewrite Hst, Hres. cbn [bind str_eq].
    rewrite bool_decide_eq_true_2 by reflexivity.
    cbn [bind truthy getitem0].
    rewrite Hg. cbn [bind]. rewrite Hloc. cbn [bind].
    rewrite Hpid, Hfa, Hcomps. cbn [bind iter].
    rewrite (for_each_readable comps _ _ _ Hread). cbn [bind].
    rewrite Hlat, Hlng. cbn [bind try_except]. reflexivity.
  - cbn [city state zip_code].
    assert (Hin : forall pre c post, comps = (pre ++ c :: post)%list ->
                                     readable c = true).
    { intros pre c post ->. rewrite forallb_app in Hread.
      apply andb_prop in Hread. destruct Hread as [_ Hread].
      simpl in Hread. apply andb_prop in Hread. tauto. }
    repeat split; intros pre c post Heq Hc Hpost;
      rewrite Heq, (fold_assign_last _ _ pre post c _ Hc Hpost);
      apply (readable_field c _ _ (Hin pre c post Heq) Hc); auto.
Qed.

Lemma last_tagged_component_wins_witness :
  exists r,
    get_geocode_and_place_id (R := opaque_repr) two_localities_env (py "1 Main St")
    = Return (Geocoded r)
    /\ city r = JStr (py "Shelbyville")
    /\ state r = JStr (py "IL").
Proof.
  destruct (last_tagged_component_wins (R := opaque_repr) two_localities_env
              (py "1 Main St") two_localities (JInt 39) (JInt (-89))
              (JStr (py "ChIJ")) (JStr (py "1 Main St"))
              [springfield; illinois; shelbyville])
    as [r [Hr [Hcity [Hstate _]]]].
  - reflexivity.
  - reflexivity.
  - unfold found_envelope, two_localities. do 5 eexists.
    split; [reflexivity|]. repeat split; vm_compute; reflexivity.
  - vm_compute. reflexivity.
  - exists r. split; [exact Hr|]. split.
    + assert (H : Return (JStr (py "Shelbyville")) = Return (city r))
        by (apply (Hcity [springfield; illinois] shelbyville []);
            vm_compute; reflexivity).
      injection H as H. symmetry. exact H.
    + assert (H : Return (JStr (py "IL")) = Return (state r))
        by (apply (Hstate [springfield] illinois [shelbyville]);
            vm_compute; reflexivity).
      injection H as H. symmetry. exact H.
Defined.

End MapsToolsFacts.

(** ** tools/bigquery_tools.py: theorems *)

Module BigqueryToolsFacts.
Import BigqueryTools.

Section Facts.
Context {E : SqlEngine}.

Lemma insert_desc_HdRel (a r : comparable) (l : list comparable) :
  price_desc a r -> HdRel price_desc a l -> HdRel price_desc a (insert_desc r l).
Proof.
  intros Har Hal. destruct l as [|x l]; simpl.
  - constructor. exact Har.
  - destruct (order_le (col_price x) (col_price r)).
    + constructor. exact Har.
    + constructor. inversion Hal; assumption.
Qed.

Lemma insert_desc_sorted (r : comparable) (l : list comparable) :
  descending_by_price l -> descending_by_price (insert_desc r l).
Proof.
  unfold descending_by_price. induction 1 as [|x l Hl IH Hx]; simpl.
  - repeat constructor.
  - destruct (order_le (col_price x) (col_price r)) eqn:Hxr.
    + constructor; [constructor; assumption | constructor; exact Hxr].
    + constructor; [exact IH|].
      apply insert_desc_HdRel; [|exact Hx].
      unfold price_desc.
      destruct (order_le_total (col_price x) (col_price r)) as [H | H];
        [congruence | exact H].
Qed.

Lemma order_by_price_desc_sorted (l : list comparable) :
  descending_by_price (order_by_price_desc l).
Proof.
  unfold order_by_price_desc. induction l as [|r l IH]; simpl.
  - constructor.
  - apply insert_desc_sorted. exact IH.
Qed.

(** A prefix of a descending list is descending. *)
Lemma firstn_sorted (n : nat) (l : list comparable) :
  descending_by_price l -> descending_by_price (firstn n l).
Proof.
  unfold descending_by_price. revert l.
  induction n as [|n IH]; intros l Hl; [constructor|].
  destruct l as [|x l]; [constructor|].
  simpl. inversion Hl as [|? ? Hs Hh]; subst.
  constructor; [apply IH; exact Hs|].
  destruct l as [|y l]; [rewrite firstn_nil; constructor|].
  destruct n as [|n']; [constructor|].
  simpl. constructor. inversion Hh; assumption.
Qed.


(** The query finds nothing when the zip code is plain and no row of the
    census table has it as [geo_id]. *)
Lemma run_demographics_no_match (w : warehouse) (zip_code : pystr) :
  failure w (SelectDemographics zip_code) = None ->
  sql_plain zip_code = true ->
  (forall r, In r (zip_code_2020_5yr w) -> geo_id r <> zip_code) ->
  run_demographics w zip_code = Return [].
Proof.
  intros Hf Hp Hno. unfold run_demographics. rewrite Hf, Hp.
  replace (List.filter _ _) with (@nil acs_row); [reflexivity|].
  induction (zip_code_2020_5yr w) as [|r l IH]; [reflexivity|].
  simpl. rewrite bool_decide_eq_false_2 by (apply Hno; left; reflexivity).
  apply IH. intros r' Hr'. apply Hno. right. exact Hr'.
Qed.

(** C5. [get_demographics_by_zip] always returns a payload; it returns the
    no-data marker, which is not an error payload, when its query was sent
    and came back with zero rows; and it returns an error payload exactly
    when the zip code is empty or the query fails. *)
Theorem get_demographics_by_zip_payloads (w : warehouse) (zip_code : pystr) :
  (exists p, result (get_demographics_by_zip w zip_code) = Return p)
  /\ (issued (get_demographics_by_zip w zip_code) = [SelectDemographics zip_code] ->
      run_demographics w zip_code = Return [] ->
      result (get_demographics_by_zip w zip_code)
      = Return (NoDemographics
                  (py "No data found for this zip code in public datasets."))
      /\ ~ error_payload (get_demographics_by_zip w zip_code))
  /\ (error_payload (get_demographics_by_zip w zip_code)
      <-> zip_code = []
          \/ exists e, run_demographics w zip_code = Raise e).
Proof.
  unfold error_payload, get_demographics_by_zip.
  destruct zip_code as [|c z]; cbn [str_truthy negb result issued].
  - split; [eauto|]. split; [discriminate|].
    split; [auto | eauto].
  - destruct (run_demographics w (c :: z)) as [[|row rows]|e];
      cbn [bind try_except].
    + split; [eauto|]. split.
      * intros _ _. split; [reflexivity|]. intros [msg H]. discriminate H.
      * split; [intros [msg H]; discriminate H|].
        intros [H | [e H]]; discriminate H.
    + split; [eauto|]. split; [discriminate|].
      split; [intros [msg H]; discriminate H|].
      intros [H | [e H]]; discriminate H.
    + split; [eauto|]. split; [discriminate|].
      split; [eauto | eauto].
Qed.

(** C6. With an empty city or an empty state
    [find_comparable_properties_in_bq] returns an error payload and sends no
    query. *)
Theorem find_comparable_requires_city_and_state (w : warehouse)
    (city state : pystr) (property_type : option pystr)
    (min_sqft max_price : option number) (limit : Z) :
  city = [] \/ state = [] ->
  result (find_comparable_properties_in_bq w city state property_type
            min_sqft max_price limit)
  = Return (Error (py "City and State are required to find comparables."))
  /\ issued (find_comparable_properties_in_bq w city state property_type
               min_sqft max_price limit) = [].
Proof.
  intros H. unfold find_comparable_properties_in_bq.
  assert (Hg : negb (str_truthy city) || negb (str_truthy state) = true).
  { destruct H as [-> | ->]; [reflexivity | apply orb_true_r]. }
  rewrite Hg. split; reflexivity.
Qed.


End Facts.

Lemma find_comparable_requires_city_and_state_witness :
  result (find_comparable_properties_in_bq austin_offices [] (py "TX")
            (Some (py "Office")) None None 5)
  = Return (Error (py "City and State are required to find comparables."))
  /\ issued (find_comparable_properties_in_bq austin_offices [] (py "TX")
               (Some (py "Office")) None None 5) = [].
Proof.
  apply (find_comparable_requires_city_and_state (E := integer_engine)).
  left. reflexivity.
Defined.

Lemma get_demographics_by_zip_payloads_witness :
  result (get_demographics_by_zip dallas_only (py "00000"))
  = Return (NoDemographics (py "No data found for this zip code in public datasets.")).
Proof.
  apply (get_demographics_by_zip_payloads (E := integer_engine) dallas_only
           (py "00000")); reflexivity.
Defined.



End BigqueryToolsFacts.

(** ** main.py: theorems *)

Module MainFacts.
Import Main.

(** A dict is truthy exactly when it has a key. *)
Lemma truthy_dict (m : gmap pystr json) : truthy (JObj m) = true <-> m <> ∅.
Proof.
  cbn [truthy]. rewrite negb_true_iff, bool_decide_eq_false.
  rewrite dom_empty_iff_L. reflexivity.
Qed.

Lemma truthy_dict_lookup (m : gmap pystr json) (k : pystr) (v : json) :
  m !! k = Some v -> truthy (JObj m) = true.
Proof.
  intros H. apply truthy_dict. intros ->. rewrite lookup_empty in H. discriminate H.
Qed.

(** A falsy body is answered 400 with the invalid-JSON message: [None],
    [false], [0], [0.0], the empty string, list and dict alike. *)
Lemma falsy_body {R : Repr} (model : agent) (data : json) :
  truthy data = false -> analyze_property model data = Return invalid_json.
Proof.
  intros H. unfold analyze_property, analyze_property_body. rewrite H. reflexivity.
Qed.

(** A non-empty dict whose [address] is absent or falsy is answered 400 with
    the missing-address message. *)
Lemma falsy_address {R : Repr} (model : agent) (m : gmap pystr json) :
  m <> ∅ -> truthy (default JNull (m !! py "address")) = false ->
  analyze_property model (JObj m) = Return missing_address.
Proof.
  intros Hm Ha. apply truthy_dict in Hm.
  unfold analyze_property, analyze_property_body. rewrite Hm.
  cbn [negb get bind]. rewrite Ha. reflexivity.
Qed.

(** The response once the model has replied. *)
Lemma analyze_property_reply {R : Repr} (model : agent) (m : gmap pystr json)
    (address : json) (reply : response) :
  m !! py "address" = Some address -> truthy address = true ->
  generate_content model (final_prompt address) = Return reply ->
  analyze_property model (JObj m)
  = match extract_memo reply with
    | Return memo =>
        Return (if blank memo then empty_memo else (MemoBody memo, 200%Z))
    | Raise e => Return (ErrorBody (exn_str e), 500%Z)
    end.
Proof.
  intros Hm Ha Hg. unfold analyze_property, analyze_property_body.
  rewrite (truthy_dict_lookup m _ _ Hm). cbn [negb get bind].
  rewrite Hm. cbn [default from_option id]. rewrite Ha. cbn [negb].
  rewrite Hg. cbn [bind].
  destruct (extract_memo reply) as [memo|e]; cbn [bind try_except]; [|reflexivity].
  rewrite strip_truthy, negb_involutive.
  destruct (blank memo); reflexivity.
Qed.

Lemma extract_memo_parts (r : response) :
  extract_memo r = for_each_part (reply_parts r) [].
Proof.
  unfold extract_memo, reply_parts. destruct (candidates r) as [|c cs]; [reflexivity|].
  destruct (candidate_content c); reflexivity.
Qed.

(** The loop over segments whose names can be read appends their
    contributions. *)
Lemma for_each_part_readable (segments : list part) :
  forall memo,
    forallb name_readable segments = true ->
    for_each_part segments memo
    = Return (memo ++ List.concat (List.map contribution segments))%list.
Proof.
  induction segments as [|p segments IH]; intros memo H.
  - cbn [for_each_part List.map List.concat]. rewrite app_nil_r. reflexivity.
  - cbn [forallb] in H. apply andb_prop in H. destruct H as [Hp H].
    cbn [for_each_part List.map List.concat].
    destruct p as [text| [name|e] |]; cbn [append_part bind contribution];
      try discriminate Hp; rewrite (IH _ H).
    + rewrite <- app_assoc. reflexivity.
    + unfold warning_marker. rewrite <- !app_assoc. reflexivity.
    + reflexivity.
Qed.

(** The loop stops at the first function call whose name cannot be read. *)
Lemma for_each_part_raises (pre post : list part) (e : exn) :
  forall memo,
    forallb name_readable pre = true ->
    for_each_part (pre ++ FunctionCallPart (Raise e) :: post) memo = Raise e.
Proof.
  induction pre as [|p pre IH]; intros memo H.
  - reflexivity.
  - cbn [forallb] in H. apply andb_prop in H. destruct H as [Hp H].
    cbn [app for_each_part].
    destruct p as [text| [name|e'] |]; cbn [append_part bind];
      try discriminate Hp; apply IH; exact H.
Qed.

(** Without function calls the contributions are the texts. *)
Lemma contribution_text (segments : list part) :
  forallb (fun p => negb (is_function_call p)) segments = true ->
  List.concat (List.map contribution segments)
  = List.concat (List.map text_of segments).
Proof.
  induction segments as [|p segments IH]; intros H; [reflexivity|].
  cbn [forallb] in H. apply andb_prop in H. destruct H as [Hp H].
  cbn [List.map List.concat]. rewrite (IH H).
  destruct p as [text| name |]; [reflexivity | discriminate Hp | reflexivity].
Qed.

(** C1, as the code has it.  The body [{}] is falsy, so it is answered 400
    with the invalid-JSON message; the missing-address message answers a
    non-empty object without an [address] key. *)
Theorem empty_object_is_an_empty_payload {R : Repr} (model : agent) :
  analyze_property model (JObj ∅) = Return invalid_json
  /\ (forall m : gmap pystr json,
        m <> ∅ -> m !! py "address" = None ->
        analyze_property model (JObj m) = Return missing_address).
Proof.
  split.
  - apply falsy_body. reflexivity.
  - intros m Hm Ha. apply falsy_address; [exact Hm|]. rewrite Ha. reflexivity.
Qed.

(** C1 as stated fails: the body [{}] gets the invalid-JSON message, not the
    missing-address message. *)
Lemma empty_object_gets_invalid_json :
  analyze_property (R := opaque_repr) writing_agent (JObj ∅) = Return invalid_json
  /\ invalid_json <> missing_address.
Proof. split; [reflexivity | intros H; discriminate H]. Qed.

Lemma empty_object_is_an_empty_payload_witness :
  analyze_property (R := opaque_repr) writing_agent
    (JObj {[ py "street" := JStr (py "1 Infinite Loop") ]})
  = Return missing_address.
Proof.
  apply (empty_object_is_an_empty_payload (R := opaque_repr) writing_agent).
  - intros H. apply (f_equal (fun m => m !! py "street")) in H.
    vm_compute in H. discriminate H.
  - vm_compute. reflexivity.
Defined.

(** C7, as the code has it.  The generated memo is the concatenation, in
    order, of the text segments and of a warning marker naming the tool for
    every function-call segment.  When the names of the function calls can
    be read, a blank memo is answered 500 with the fixed message and any
    other memo 200 with the memo as [deal_memo]; the memo is the
    concatenated text when the reply has no function-call segment.  When
    the name of a function call cannot be read, the response is 500 with
    the message of the exception. *)
Theorem memo_decides_the_response {R : Repr} (model : agent)
    (m : gmap pystr json) (address : json) (reply : response) :
  m !! py "address" = Some address -> truthy address = true ->
  generate_content model (final_prompt address) = Return reply ->
  (forallb name_readable (reply_parts reply) = true ->
   (blank (memo_of_reply reply) = true ->
    analyze_property model (JObj m) = Return empty_memo)
   /\ (blank (memo_of_reply reply) = false ->
       analyze_property model (JObj m)
       = Return (MemoBody (memo_of_reply reply), 200%Z)))
  /\ (forallb (fun p => negb (is_function_call p)) (reply_parts reply) = true ->
      memo_of_reply reply = concatenated_text reply)
  /\ (forall pre e post,
        reply_parts reply = (pre ++ FunctionCallPart (Raise e) :: post)%list ->
        forallb name_readable pre = true ->
        analyze_property model (JObj m) = Return (ErrorBody (exn_str e), 500%Z)).
Proof.
  intros Hm Ha Hg.
  rewrite (analyze_property_reply model m address reply Hm Ha Hg).
  rewrite extract_memo_parts.
  split; [|split].
  - intros Hread. rewrite (for_each_part_readable _ [] Hread).
    cbn [app]. fold (memo_of_reply reply).
    split; intros ->; reflexivity.
  - intros Hno. apply contribution_text. exact Hno.
  - intros pre e post -> Hpre. rewrite (for_each_part_raises pre post e [] Hpre).
    reflexivity.
Qed.

(** C7 as stated fails: a reply made of a function call has no text at all,
    and is answered 200 with the warning marker as memo. *)
Lemma tool_call_reply_is_answered_200 :
  concatenated_text tool_call_reply = []
  /\ analyze_property (R := opaque_repr) calling_agent cupertino
     = Return
         (MemoBody
            ([10; 10]%N
             ++ py "**[Warning: Agent attempted to call a tool in final response unexpectedly: get_demographics_by_zip]**"
             ++ [10; 10]%N)%list,
          200%Z).
Proof. split; vm_compute; reflexivity. Qed.

Lemma memo_decides_the_response_witness :
  analyze_property (R := opaque_repr) writing_agent cupertino
  = Return (MemoBody (py "Executive Summary: sound."), 200%Z)
  /\ analyze_property (R := opaque_repr) nameless_call_agent cupertino
     = Return (ErrorBody (py "'NoneType' object has no attribute 'name'"), 500%Z).
Proof.
  split.
  - refine (proj2 (proj1 (memo_decides_the_response (R := opaque_repr) writing_agent
               {[ py "address" := JStr (py "1 Infinite Loop, Cupertino, CA 95014") ]}
               (JStr (py "1 Infinite Loop, Cupertino, CA 95014"))
               (reply_of [TextPart (py "Executive Summary: "); TextPart (py "sound.")])
               _ _ _) _) _); vm_compute; reflexivity.
  - refine (proj2 (proj2 (memo_decides_the_response (R := opaque_repr)
               nameless_call_agent
               {[ py "address" := JStr (py "1 Infinite Loop, Cupertino, CA 95014") ]}
               (JStr (py "1 Infinite Loop, Cupertino, CA 95014"))
               (reply_of
                  [TextPart (py "memo");
                   FunctionCallPart
                     (Raise (Exn AttributeError
                               (py "'NoneType' object has no attribute 'name'")))])
               _ _ _))
              [TextPart (py "memo")]
              (Exn AttributeError (py "'NoneType' object has no attribute 'name'"))
              [] _ _); vm_compute; reflexivity.
Defined.

(** C9, as the code has it.  A body that parses to a value other than an
    object is answered 500, with the message of the [AttributeError] that
    [data.get] raises, when the value is truthy (a non-empty list or string,
    a non-zero number, [true]); when it is falsy ([0], [0.0], [false],
    [null], the empty string or list) it is answered 400 with the
    invalid-JSON message. *)
Theorem non_object_body_is_500_unless_falsy {R : Repr} (model : agent)
    (data : json) :
  is_dict data = false ->
  (truthy data = true ->
   exists e,
     get data (py "address") = Raise e
     /\ exn_cls e = AttributeError
     /\ analyze_property model data = Return (ErrorBody (exn_str e), 500%Z))
  /\ (truthy data = false -> analyze_property model data = Return invalid_json).
Proof.
  intros Hd. split.
  - intros Ht. unfold analyze_property, analyze_property_body. rewrite Ht.
    destruct data; try discriminate Hd; eexists; repeat split.
  - apply falsy_body.
Qed.

(** C9 as stated fails: the bodies [0] and [false] are numbers and booleans,
    not objects, and are answered 400. *)
Lemma zero_body_is_answered_400 :
  analyze_property (R := opaque_repr) writing_agent (JInt 0) = Return invalid_json
  /\ analyze_property (R := opaque_repr) writing_agent (JBool false)
     = Return invalid_json.
Proof. split; reflexivity. Qed.

Lemma non_object_body_is_500_unless_falsy_witness :
  analyze_property (R := opaque_repr) writing_agent
    (JArr [JStr (py "1 Infinite Loop")])
  = Return (ErrorBody (py "'list' object has no attribute 'get'"), 500%Z).
Proof.
  destruct (proj1 (non_object_body_is_500_unless_falsy (R := opaque_repr)
                     writing_agent (JArr [JStr (py "1 Infinite Loop")]) eq_refl)
              eq_refl)
    as [e [Hget [_ Hres]]].
  rewrite Hres. injection Hget as <-. reflexivity.
Defined.

(** C10. A non-empty object whose [address] is a falsy value that is not a
    string ([0], [false], [null], an empty list or dict) is answered 400
    with the missing-address message, as an object without the key is. *)
Theorem falsy_address_is_a_missing_address {R : Repr} (model : agent)
    (m : gmap pystr json) (v : json) :
  m !! py "address" = Some v -> truthy v = false -> is_str v = false ->
  analyze_property model (JObj m) = Return missing_address
  /\ (forall m' : gmap pystr json,
        m' <> ∅ -> m' !! py "address" = None ->
        analyze_property model (JObj m') = analyze_property model (JObj m)).
Proof.
  intros Hm Hv _.
  assert (H : analyze_property model (JObj m) = Return missing_address).
  { apply falsy_address.
    - intros ->. rewrite lookup_empty in Hm. discriminate Hm.
    - rewrite Hm. exact Hv. }
  split; [exact H|].
  intros m' Hne Hnone. rewrite H. apply falsy_address; [exact Hne|].
  rewrite Hnone. reflexivity.
Qed.

Lemma falsy_address_is_a_missing_address_witness :
  analyze_property (R := opaque_repr) writing_agent (JObj {[ py "address" := JInt 0 ]})
  = Return missing_address.
Proof.
  apply (falsy_address_is_a_missing_address (R := opaque_repr) writing_agent
           {[ py "address" := JInt 0 ]} (JInt 0)); vm_compute; reflexivity.
Defined.

End MainFacts.

(** ** tools/maps_tools.py: further properties *)

Module MapsToolsMore.
Import MapsTools MapsToolsFacts.

(** The success dict on a found-address envelope with readable components. *)
Lemma geocode_envelope_result {R : Repr} (env : maps_env) (address : pystr)
    (data lat lng pid fa : json) (comps : list json) :
  env_truthy (MAPS_API_KEY env) = true ->
  requests_get_json env (geocode_url env address) = Return data ->
  found_envelope data lat lng pid fa comps ->
  forallb readable comps = true ->
  get_geocode_and_place_id env address
  = Return (Geocoded
      {| latitude := lat; longitude := lng; place_id := pid;
         formatted_address := fa;
         city := fold_left (assign (py "locality") (py "long_name")) comps JNull;
         state := fold_left (assign (py "administrative_area_level_1")
                               (py "short_name")) comps JNull;
         zip_code := fold_left (assign (py "postal_code") (py "long_name"))
                       comps JNull |}).
Proof.
  intros Hkey Hreq (m & r0 & rest & g & loc & -> & Hst & Hres & Hg & Hloc & Hlat
                    & Hlng & Hpid & Hfa & Hcomps) Hread.
  unfold get_geocode_and_place_id. rewrite Hkey. cbn [negb].
  unfold geocode_body. rewrite Hreq. cbn [bind].
  unfold first_result, getitem. rewrite Hst, Hres. cbn [bind str_eq].
  rewrite bool_decide_eq_true_2 by reflexivity.
  cbn [bind truthy getitem0].
  rewrite Hg. cbn [bind]. rewrite Hloc. cbn [bind].
  rewrite Hpid, Hfa, Hcomps. cbn [bind iter].
  rewrite (for_each_readable comps _ _ _ Hread). cbn [bind].
  rewrite Hlat, Hlng. reflexivity.
Qed.

(** X1. On a found-address envelope the success dict carries the
    coordinates, place id and formatted address of the first result, and a
    variable whose tag no component carries stays [None]. *)
Theorem first_result_is_returned {R : Repr} (env : maps_env) (address : pystr)
    (data lat lng pid fa : json) (comps : list json) :
  env_truthy (MAPS_API_KEY env) = true ->
  requests_get_json env (geocode_url env address) = Return data ->
  found_envelope data lat lng pid fa comps ->
  forallb readable comps = true ->
  exists r,
    get_geocode_and_place_id env address = Return (Geocoded r)
    /\ latitude r = lat /\ longitude r = lng
    /\ place_id r = pid /\ formatted_address r = fa
    /\ (untagged (py "locality") comps = true -> city r = JNull)
    /\ (untagged (py "administrative_area_level_1") comps = true -> state r = JNull)
    /\ (untagged (py "postal_code") comps = true -> zip_code r = JNull).
Proof.
  intros Hkey Hreq Henv Hread. eexists. split.
  - apply (geocode_envelope_result env address data lat lng pid fa comps); assumption.
  - cbn [latitude longitude place_id formatted_address city state zip_code].
    repeat split; intros H; apply fold_assign_untagged; exact H.
Qed.

Lemma first_result_is_returned_witness :
  exists r,
    get_geocode_and_place_id (R := opaque_repr) two_localities_env (py "1 Main St")
    = Return (Geocoded r)
    /\ latitude r = JInt 39 /\ place_id r = JStr (py "ChIJ") /\ zip_code r = JNull.
Proof.
  destruct (first_result_is_returned (R := opaque_repr) two_localities_env
              (py "1 Main St") two_localities (JInt 39) (JInt (-89))
              (JStr (py "ChIJ")) (JStr (py "1 Main St"))
              [springfield; illinois; shelbyville])
    as (r & Hr & Hlat & _ & Hpid & _ & _ & _ & Hzip).
  - reflexivity.
  - reflexivity.
  - unfold found_envelope, two_localities. do 5 eexists.
    split; [reflexivity|]. repeat split; vm_compute; reflexivity.
  - vm_compute. reflexivity.
  - exists r. repeat split; [exact Hr | exact Hlat | exact Hpid |].
    apply Hzip. vm_compute. reflexivity.
Defined.

Lemma str_eq_true (s : pystr) (x : json) : str_eq s x = true -> x = JStr s.
Proof.
  destruct x; try discriminate. cbn [str_eq]. intros H.
  apply bool_decide_eq_true in H. congruence.
Qed.

(** X2. A success dict is returned only when the credential is set, the
    geocoder answered with status "OK" and a non-empty result list, and its
    fields are read from the first result. *)
Theorem geocoded_only_on_status_ok {R : Repr} (env : maps_env) (address : pystr)
    (r : GeoResult) :
  get_geocode_and_place_id env address = Return (Geocoded r) ->
  env_truthy (MAPS_API_KEY env) = true
  /\ exists data results first geometry location,
       requests_get_json env (geocode_url env address) = Return data
       /\ getitem data (py "status") = Return (JStr (py "OK"))
       /\ getitem data (py "results") = Return results
       /\ truthy results = true
       /\ getitem0 results = Return first
       /\ getitem first (py "geometry") = Return geometry
       /\ getitem geometry (py "location") = Return location
       /\ getitem location (py "lat") = Return (latitude r)
       /\ getitem location (py "lng") = Return (longitude r)
       /\ getitem first (py "place_id") = Return (place_id r)
       /\ getitem first (py "formatted_address") = Return (formatted_address r).
Proof.
  intros H.
  assert (Hkey : env_truthy (MAPS_API_KEY env) = true).
  { unfold get_geocode_and_place_id in H.
    destruct (env_truthy (MAPS_API_KEY env)); [reflexivity | discriminate H]. }
  split; [exact Hkey|].
  destruct (get_geocode_cases env address) as [[msg He] | [r' [Hb Hr]]];
    [rewrite He in H; discriminate H|].
  rewrite Hr in H. injection H as ->. clear Hr.
  unfold geocode_body in Hb.
  destruct (requests_get_json env (geocode_url env address)) as [data|e];
    [|discriminate Hb].
  cbn [bind] in Hb.
  destruct (getitem data (py "status")) as [status|e] eqn:Hst; [|discriminate Hb].
  cbn [bind] in Hb.
  destruct (str_eq (py "OK") status) eqn:Hok; cbn [bind] in Hb.
  2:{ destruct (get data (py "status")); [|discriminate Hb]. cbn [bind] in Hb.
      destruct (get data (py "error_message")); discriminate Hb. }
  apply str_eq_true in Hok. subst status.
  unfold first_result in Hb.
  destruct (getitem data (py "results")) as [results|e] eqn:Hres; [|discriminate Hb].
  cbn [bind] in Hb.
  destruct (truthy results) eqn:Htr.
  2:{ destruct (get data (py "status")); [|discriminate Hb]. cbn [bind] in Hb.
      destruct (get data (py "error_message")); discriminate Hb. }
  destruct (getitem0 results) as [first|e] eqn:Hfirst; [|discriminate Hb].
  cbn [bind] in Hb.
  destruct (getitem first (py "geometry")) as [geometry|e] eqn:Hgeo;
    [|discriminate Hb].
  cbn [bind] in Hb.
  destruct (getitem geometry (py "location")) as [location|e] eqn:Hloc;
    [|discriminate Hb].
  cbn [bind] in Hb.
  destruct (getitem first (py "place_id")) as [pid|e] eqn:Hpid; [|discriminate Hb].
  cbn [bind] in Hb.
  destruct (getitem first (py "formatted_address")) as [fa|e] eqn:Hfa;
    [|discriminate Hb].
  cbn [bind] in Hb.
  destruct (getitem first (py "address_components")) as [components|e];
    [|discriminate Hb].
  cbn [bind] in Hb.
  destruct (iter components) as [items|e]; [|discriminate Hb].
  cbn [bind] in Hb.
  destruct (for_each scan_component items (JNull, JNull, JNull))
    as [[[c s] z]|e]; [|discriminate Hb].
  cbn [bind] in Hb.
  destruct (getitem location (py "lat")) as [lat|e] eqn:Hlat; [|discriminate Hb].
  cbn [bind] in Hb.
  destruct (getitem location (py "lng")) as [lng|e] eqn:Hlng; [|discriminate Hb].
  cbn [bind] in Hb. injection Hb as <-.
  exists data, results, first, geometry, location.
  cbn [latitude longitude place_id formatted_address].
  repeat split; assumption || reflexivity.
Qed.

(** The reply [two_localities], geocoded. *)
Lemma two_localities_geocoded :
  get_geocode_and_place_id (R := opaque_repr) two_localities_env (py "1 Main St")
  = Return (Geocoded
      {| latitude := JInt 39; longitude := JInt (-89);
         place_id := JStr (py "ChIJ"); formatted_address := JStr (py "1 Main St");
         city := JStr (py "Shelbyville"); state := JStr (py "IL");
         zip_code := JNull |}).
Proof. vm_compute. reflexivity. Qed.

Lemma geocoded_only_on_status_ok_witness :
  env_truthy (MAPS_API_KEY two_localities_env) = true
  /\ exists data results first geometry location,
       requests_get_json two_localities_env
         (geocode_url two_localities_env (py "1 Main St")) = Return data
       /\ getitem data (py "status") = Return (JStr (py "OK"))
       /\ getitem data (py "results") = Return results
       /\ truthy results = true
       /\ getitem0 results = Return first
       /\ getitem first (py "geometry") = Return geometry
       /\ getitem geometry (py "location") = Return location
       /\ getitem location (py "lat") = Return (JInt 39)
       /\ getitem location (py "lng") = Return (JInt (-89))
       /\ getitem first (py "place_id") = Return (JStr (py "ChIJ"))
       /\ getitem first (py "formatted_address") = Return (JStr (py "1 Main St")).
Proof.
  exact (geocoded_only_on_status_ok (R := opaque_repr) two_localities_env
           (py "1 Main St") _ two_localities_geocoded).
Defined.

Lemma for_each_raises (pre post : list json) (c : json) (e : exn) :
  forallb readable pre = true ->
  (forall vars, scan_component vars c = Raise e) ->
  forall vars, for_each scan_component (pre ++ c :: post) vars = Raise e.
Proof.
  intros Hpre Hc. induction pre as [|x pre IH]; intros [[ci st] z].
  - cbn [app for_each]. rewrite Hc. reflexivity.
  - simpl in Hpre. apply andb_prop in Hpre. destruct Hpre as [Hx Hpre].
    cbn [app for_each]. rewrite (scan_component_readable _ _ _ _ Hx). cbn [bind].
    apply IH. exact Hpre.
Qed.

(** X4. One component tagged locality without a [long_name] loses the whole
    result: the [KeyError] is caught by the last [except] clause and the
    call returns its error payload, not a partial success dict. *)
Theorem locality_without_long_name {R : Repr} (env : maps_env) (address : pystr)
    (data lat lng pid fa : json) (pre post : list json)
    (m : gmap pystr json) (ts : list json) :
  env_truthy (MAPS_API_KEY env) = true ->
  requests_get_json env (geocode_url env address) = Return data ->
  found_envelope data lat lng pid fa (pre ++ JObj m :: post) ->
  forallb readable pre = true ->
  m !! py "types" = Some (JArr ts) ->
  existsb (str_eq (py "locality")) ts = true ->
  m !! py "long_name" = None ->
  get_geocode_and_place_id env address
  = Return (Error
              (py "An unexpected error occurred during geocoding: 'long_name'.")).
Proof.
  intros Hkey Hreq (m0 & r0 & rest & g & loc & -> & Hst & Hres & Hg & Hloc & Hlat
                    & Hlng & Hpid & Hfa & Hcomps) Hpre Hty Hloc' Hlong.
  unfold get_geocode_and_place_id. rewrite Hkey. cbn [negb].
  unfold geocode_body. rewrite Hreq. cbn [bind].
  unfold first_result, getitem. rewrite Hst, Hres. cbn [bind str_eq].
  rewrite bool_decide_eq_true_2 by reflexivity.
  cbn [bind truthy getitem0].
  rewrite Hg. cbn [bind]. rewrite Hloc. cbn [bind].
  rewrite Hpid, Hfa, Hcomps. cbn [bind iter].
  rewrite (for_each_raises pre post (JObj m)
             (Exn KeyError (py "'" ++ py "long_name" ++ py "'")%list) Hpre).
  - reflexivity.
  - intros [[ci st] z]. unfold scan_component, getitem. rewrite Hty.
    cbn [bind contains]. rewrite Hloc'. rewrite Hlong. reflexivity.
Qed.

Lemma nameless_locality_envelope :
  found_envelope nameless_locality (JInt 1) (JInt 2) (JStr (py "P")) (JStr (py "F"))
    ([] ++ JObj {[py "types" := JArr [JStr (py "locality")]]} :: [])%list.
Proof.
  unfold found_envelope, nameless_locality. do 5 eexists.
  split; [reflexivity|]. repeat split; vm_compute; reflexivity.
Qed.

Lemma locality_without_long_name_witness :
  get_geocode_and_place_id (R := opaque_repr) nameless_locality_env (py "1 Main St")
  = Return (Error
              (py "An unexpected error occurred during geocoding: 'long_name'.")).
Proof.
  apply (locality_without_long_name (R := opaque_repr) nameless_locality_env
           (py "1 Main St") nameless_locality (JInt 1) (JInt 2) (JStr (py "P"))
           (JStr (py "F")) [] []
           {[py "types" := JArr [JStr (py "locality")]]} [JStr (py "locality")]);
    [reflexivity | reflexivity | exact nameless_locality_envelope
    | reflexivity | vm_compute; reflexivity | vm_compute; reflexivity
    | vm_compute; reflexivity].
Defined.

(** X5. A failed request gets the message of the first [except] clause that
    matches its class: a timeout the timeout message (although it is a
    [RequestException] as well), another [RequestException] the
    request-failed message with the text of the exception, any other
    exception the unexpected-error message with its text. *)
Theorem failed_request_messages {R : Repr} (env : maps_env) (address : pystr)
    (e : exn) :
  env_truthy (MAPS_API_KEY env) = true ->
  requests_get_json env (geocode_url env address) = Raise e ->
  (exn_cls e = Timeout ->
   get_geocode_and_place_id env address
   = Return (Error (py "Geocoding API request timed out for address: "
                    ++ address ++ py "."))%list)
  /\ (exn_cls e = RequestException ->
      get_geocode_and_place_id env address
      = Return (Error (py "Geocoding API request failed: "
                       ++ exn_str e ++ py "."))%list)
  /\ (exn_cls e <> Timeout -> exn_cls e <> RequestException ->
      get_geocode_and_place_id env address
      = Return (Error (py "An unexpected error occurred during geocoding: "
                       ++ exn_str e ++ py "."))%list).
Proof.
  intros Hkey Hreq. rewrite (geocode_error_messages env address e Hkey Hreq).
  unfold is_Timeout, is_RequestException.
  repeat split.
  - intros ->. reflexivity.
  - intros ->. reflexivity.
  - intros Ht Hr. destruct (exn_cls e); congruence.
Qed.

Lemma failed_request_messages_witness :
  get_geocode_and_place_id (R := opaque_repr) stalled_env (py "1 Main St")
  = Return (Error (py "Geocoding API request timed out for address: 1 Main St.")).
Proof.
  apply (failed_request_messages (R := opaque_repr) stalled_env (py "1 Main St")
           (Exn Timeout (py "Read timed out.")) eq_refl eq_refl).
  reflexivity.
Defined.

(** X6. When the geocoder answers with a status string other than "OK", or
    with a falsy result list, the error message quotes the address and the
    status. *)
Theorem geocode_status_is_reported {R : Repr} (env : maps_env) (address : pystr)
    (m : gmap pystr json) (status : pystr) :
  env_truthy (MAPS_API_KEY env) = true ->
  requests_get_json env (geocode_url env address) = Return (JObj m) ->
  m !! py "status" = Some (JStr status) ->
  status <> py "OK"
  \/ (exists results, m !! py "results" = Some results /\ truthy results = false) ->
  get_geocode_and_place_id env address
  = Return (Error (py "Could not geocode address: " ++ address
                   ++ py ". Status: " ++ status ++ py "."))%list.
Proof.
  intros Hkey Hreq Hst Hcase.
  unfold get_geocode_and_place_id. rewrite Hkey. cbn [negb].
  unfold geocode_body. rewrite Hreq. cbn [bind].
  unfold getitem at 1. rewrite Hst. cbn [bind str_eq].
  destruct (bool_decide (py "OK" = status)) eqn:Hok.
  - apply bool_decide_eq_true in Hok.
    destruct Hcase as [Hne | [results [Hres Hfalsy]]]; [congruence|].
    unfold getitem at 1. rewrite Hres. cbn [bind]. rewrite Hfalsy.
    cbn [get bind]. rewrite Hst. reflexivity.
  - cbn [get bind]. rewrite Hst. reflexivity.
Qed.

Lemma geocode_status_is_reported_witness :
  get_geocode_and_place_id (R := opaque_repr) zero_results_env (py "nowhere at all")
  = Return (Error (py "Could not geocode address: nowhere at all. Status: ZERO_RESULTS.")).
Proof.
  apply (geocode_status_is_reported (R := opaque_repr) zero_results_env
           (py "nowhere at all")
           (<[py "status" := JStr (py "ZERO_RESULTS")]> {[py "results" := JArr []]})
           (py "ZERO_RESULTS")).
  - reflexivity.
  - reflexivity.
  - vm_compute. reflexivity.
  - left. intros H. vm_compute in H. discriminate H.
Defined.

End MapsToolsMore.

(** ** tools/bigquery_tools.py: further properties *)

Module BigqueryToolsMore.
Import BigqueryTools BigqueryToolsFacts.

Section More.
Context {E : SqlEngine}.

Lemma insert_desc_perm (r : comparable) (l : list comparable) :
  Permutation (r :: l) (insert_desc r l).
Proof.
  induction l as [|x l IH]; simpl; [reflexivity|].
  destruct (order_le (col_price x) (col_price r)); [reflexivity|].
  rewrite perm_swap. apply perm_skip. exact IH.
Qed.

(** [ORDER BY] neither drops nor invents a row. *)
Lemma order_by_price_desc_perm (l : list comparable) :
  Permutation l (order_by_price_desc l).
Proof.
  unfold order_by_price_desc. induction l as [|r l IH]; simpl; [reflexivity|].
  rewrite <- insert_desc_perm. apply perm_skip. exact IH.
Qed.

Lemma In_firstn (n : nat) (l : list comparable) (r : comparable) :
  In r (firstn n l) -> In r l.
Proof.
  intros H. rewrite <- (firstn_skipn n l). apply in_or_app. left. exact H.
Qed.

(** What the function does once city and state are given: one query, whose
    [WHERE] clause is the two required conjuncts and the optional ones. *)
Lemma find_comparable_unfold (w : warehouse) (city state : pystr)
    (property_type : option pystr) (min_sqft max_price : option number)
    (limit : Z) :
  city <> [] -> state <> [] ->
  find_comparable_properties_in_bq w city state property_type min_sqft max_price
    limit
  = {| result :=
         try_except
           (let* results :=
              run_comparables w
                ([CityIs city; StateIs state]
                 ++ optional_conditions property_type min_sqft max_price) limit in
            match results with
            | _ :: _ => Return (ComparableProperties results)
            | [] =>
                Return (NoComparableProperties
                          (py "No comparable properties found for the given criteria."))
            end)
           (fun e =>
              Return (Error (py "BigQuery comparables query failed: "
                             ++ exn_str e ++ py "."))%list);
       issued :=
         [SelectComparables
            ([CityIs city; StateIs state]
             ++ optional_conditions property_type min_sqft max_price) limit] |}.
Proof.
  intros Hc Hs. unfold find_comparable_properties_in_bq, optional_conditions.
  destruct city as [|c city]; [congruence|].
  destruct state as [|s state]; [congruence|].
  cbn [str_truthy negb orb].
  destruct property_type as [[|t0 t]|], min_sqft, max_price; reflexivity.
Qed.

Lemma plain_where (city state : pystr) (property_type : option pystr)
    (min_sqft max_price : option number) :
  plain_arguments city state property_type ->
  forallb plain_condition
    ([CityIs city; StateIs state]
     ++ optional_conditions property_type min_sqft max_price) = true.
Proof.
  intros (Hc & Hs & Ht). unfold optional_conditions.
  cbn [app forallb plain_condition]. rewrite Hc, Hs. cbn [andb].
  destruct property_type as [t|].
  - specialize (Ht t eq_refl).
    destruct (str_truthy t), min_sqft, max_price;
      cbn [app forallb plain_condition]; rewrite ?Ht; reflexivity.
  - destruct min_sqft, max_price; reflexivity.
Qed.

(** A returned list of rows is what the query answered. *)
Lemma comparables_from_run (w : warehouse) (city state : pystr)
    (property_type : option pystr) (min_sqft max_price : option number)
    (limit : Z) (rows : list comparable) :
  plain_arguments city state property_type ->
  result (find_comparable_properties_in_bq w city state property_type min_sqft
            max_price limit) = Return (ComparableProperties rows) ->
  city <> [] /\ state <> [] /\ rows <> []
  /\ failure w (SelectComparables
                  ([CityIs city; StateIs state]
                   ++ optional_conditions property_type min_sqft max_price) limit)
     = None
  /\ (0 <= limit)%Z
  /\ rows = firstn (Z.to_nat limit)
              (order_by_price_desc
                 (List.filter
                    (passes ([CityIs city; StateIs state]
                             ++ optional_conditions property_type min_sqft max_price))
                    (commercial_comparables w))).
Proof.
  intros Hplain H.
  assert (Hc : city <> []).
  { intros ->. discriminate H. }
  assert (Hs : state <> []).
  { intros ->. unfold find_comparable_properties_in_bq in H.
    rewrite orb_true_r in H. discriminate H. }
  rewrite (find_comparable_unfold w city state _ _ _ _ Hc Hs) in H.
  cbn [result] in H. unfold run_comparables, selected in H.
  rewrite (plain_where _ _ _ min_sqft max_price Hplain) in H.
  destruct (failure w _) as [e|]; [discriminate H|].
  destruct (Z.ltb_spec limit 0) as [Hneg | Hpos]; [discriminate H|].
  cbn [bind try_except] in H.
  fold (passes ([CityIs city; StateIs state]
                ++ optional_conditions property_type min_sqft max_price)) in H.
  destruct (firstn _ _) as [|row rest] eqn:Hrows; [discriminate H|].
  injection H as <-.
  repeat split; try assumption; try reflexivity. discriminate.
Qed.

(** X8. Neither tool raises, and each sends at most one query: none when a
    required argument is empty, otherwise exactly the query built from its
    arguments. *)
Theorem tools_send_at_most_one_query (w : warehouse) (zip_code city state : pystr)
    (property_type : option pystr) (min_sqft max_price : option number)
    (limit : Z) :
  (exists p, result (find_comparable_properties_in_bq w city state property_type
                       min_sqft max_price limit) = Return p)
  /\ issued (get_demographics_by_zip w zip_code)
     = (if str_truthy zip_code then [SelectDemographics zip_code] else [])
  /\ issued (find_comparable_properties_in_bq w city state property_type
               min_sqft max_price limit)
     = (if str_truthy city && str_truthy state
        then [SelectComparables
                ([CityIs city; StateIs state]
                 ++ optional_conditions property_type min_sqft max_price) limit]
        else []).
Proof.
  split; [|split].
  - destruct city as [|c city]; [eexists; reflexivity|].
    destruct state as [|s state]; [eexists; reflexivity|].
    rewrite find_comparable_unfold by discriminate. cbn [result].
    destruct (run_comparables w _ limit) as [[|row rows]|e];
      cbn [bind try_except]; eexists; reflexivity.
  - unfold get_demographics_by_zip. destruct zip_code; reflexivity.
  - destruct city as [|c city]; [reflexivity|].
    destruct state as [|s state]; [reflexivity|].
    rewrite find_comparable_unfold by discriminate. reflexivity.
Qed.

(** X9. When the pasted strings are plain, every row of a returned list is
    a row of the table that passes the city and state tests and each
    optional filter that was supplied; the list is not empty, has at most
    [limit] rows and is in descending order of price.  An empty
    [property_type] is no filter; a [min_sqft] of any value, zero included,
    is one. *)
Theorem returned_rows_pass_the_filters (w : warehouse) (city state : pystr)
    (property_type : option pystr) (min_sqft max_price : option number)
    (limit : Z) (rows : list comparable) :
  plain_arguments city state property_type ->
  result (find_comparable_properties_in_bq w city state property_type min_sqft
            max_price limit) = Return (ComparableProperties rows) ->
  rows <> []
  /\ (Z.of_nat (length rows) <= limit)%Z
  /\ descending_by_price rows
  /\ forall r, In r rows ->
       In r (commercial_comparables w)
       /\ LOWER (col_city r) = LOWER city
       /\ LOWER (col_state r) = LOWER state
       /\ (forall t, property_type = Some t -> t <> [] ->
           LOWER (col_property_type r) = LOWER t)
       /\ (forall n, min_sqft = Some n -> sql_le n (col_sqft r) = true)
       /\ (forall n, max_price = Some n -> sql_le (col_price r) n = true).
Proof.
  intros Hplain H.
  destruct (comparables_from_run _ _ _ _ _ _ _ _ Hplain H)
    as (Hc & Hs & Hne & Hf & Hlim & Hrows).
  split; [exact Hne|]. split; [|split].
  - rewrite Hrows. pose proof (firstn_le_length (Z.to_nat limit)
      (order_by_price_desc
         (List.filter
            (passes ([CityIs city; StateIs state]
                     ++ optional_conditions property_type min_sqft max_price))
            (commercial_comparables w)))) as Hle.
    lia.
  - rewrite Hrows. apply firstn_sorted, order_by_price_desc_sorted.
  - intros r Hr. rewrite Hrows in Hr. apply In_firstn in Hr.
    apply (Permutation_in r (Permutation_sym (order_by_price_desc_perm _))) in Hr.
    apply filter_In in Hr. destruct Hr as [Hin Hpass].
    split; [exact Hin|].
    unfold passes in Hpass. rewrite forallb_app in Hpass.
    apply andb_prop in Hpass. destruct Hpass as [Hreq Hopt].
    cbn [forallb holds] in Hreq.
    apply andb_prop in Hreq. destruct Hreq as [Hcity Hreq].
    apply andb_prop in Hreq. destruct Hreq as [Hstate _].
    apply bool_decide_eq_true in Hcity, Hstate.
    split; [exact Hcity|]. split; [exact Hstate|].
    unfold optional_conditions in Hopt. rewrite !forallb_app in Hopt.
    apply andb_prop in Hopt. destruct Hopt as [Htype Hopt].
    apply andb_prop in Hopt. destruct Hopt as [Hsqft Hprice].
    split; [|split].
    + intros t -> Ht. destruct t as [|t0 t]; [congruence|].
      cbn [str_truthy forallb holds] in Htype.
      apply andb_prop in Htype. destruct Htype as [Htype _].
      apply bool_decide_eq_true in Htype. exact Htype.
    + intros n ->. cbn [forallb holds] in Hsqft.
      apply andb_prop in Hsqft. tauto.
    + intros n ->. cbn [forallb holds] in Hprice.
      apply andb_prop in Hprice. tauto.
Qed.

Lemma StronglySorted_app_dominates (a b : list comparable) :
  StronglySorted price_desc (a ++ b) ->
  forall x y, In x a -> In y b -> price_desc x y.
Proof.
  induction a as [|h a IH]; intros Hs x y Hx Hy; [destruct Hx|].
  simpl in Hs. inversion Hs as [|? ? Hrest Hall]; subst.
  destruct Hx as [<- | Hx].
  - apply (proj1 (List.Forall_forall _ _) Hall). apply in_or_app. right. exact Hy.
  - apply IH; assumption.
Qed.

(** X10. When the pasted strings are plain, the rows returned are the most
    expensive ones that pass the filters: together with the rows left out they make up the passing rows
    of the table, and no row left out has a price above that of a row
    returned.  The order of prices is taken to be transitive. *)
Theorem returned_rows_are_the_most_expensive (w : warehouse) (city state : pystr)
    (property_type : option pystr) (min_sqft max_price : option number)
    (limit : Z) (rows : list comparable) :
  (forall a b c : number,
     order_le a b = true -> order_le b c = true -> order_le a c = true) ->
  plain_arguments city state property_type ->
  result (find_comparable_properties_in_bq w city state property_type min_sqft
            max_price limit) = Return (ComparableProperties rows) ->
  exists left_out,
    Permutation (rows ++ left_out)
      (List.filter
         (passes ([CityIs city; StateIs state]
                  ++ optional_conditions property_type min_sqft max_price))
         (commercial_comparables w))
    /\ forall a b, In a rows -> In b left_out ->
         order_le (col_price b) (col_price a) = true.
Proof.
  intros Htrans Hplain H.
  destruct (comparables_from_run _ _ _ _ _ _ _ _ Hplain H)
    as (_ & _ & _ & _ & _ & Hrows).
  set (sorted := order_by_price_desc
                   (List.filter
                      (passes ([CityIs city; StateIs state]
                               ++ optional_conditions property_type min_sqft
                                    max_price))
                      (commercial_comparables w))) in *.
  exists (skipn (Z.to_nat limit) sorted). split.
  - rewrite Hrows, firstn_skipn. symmetry. apply order_by_price_desc_perm.
  - intros a b Ha Hb.
    apply (StronglySorted_app_dominates rows (skipn (Z.to_nat limit) sorted));
      [|exact Ha|exact Hb].
    rewrite Hrows, firstn_skipn. apply Sorted_StronglySorted.
    + intros x y z Hxy Hyz. unfold price_desc in *. eapply Htrans; eassumption.
    + apply order_by_price_desc_sorted.
Qed.

(** X11. With city and state given, plain pasted strings, a query that does
    not fail and a non-negative limit, the no-comparables marker is returned exactly when
    the limit is 0 or no row of the table passes the filters. *)
Theorem no_comparables_marker_iff (w : warehouse) (city state : pystr)
    (property_type : option pystr) (min_sqft max_price : option number)
    (limit : Z) :
  city <> [] -> state <> [] -> (0 <= limit)%Z ->
  plain_arguments city state property_type ->
  failure w (SelectComparables
               ([CityIs city; StateIs state]
                ++ optional_conditions property_type min_sqft max_price) limit)
  = None ->
  result (find_comparable_properties_in_bq w city state property_type min_sqft
            max_price limit)
  = Return (NoComparableProperties
              (py "No comparable properties found for the given criteria."))
  <-> limit = 0%Z
      \/ forall r, In r (commercial_comparables w) ->
           passes ([CityIs city; StateIs state]
                   ++ optional_conditions property_type min_sqft max_price) r
           = false.
Proof.
  intros Hc Hs Hlim Hplain Hf.
  rewrite (find_comparable_unfold w city state _ _ _ _ Hc Hs). cbn [result].
  unfold run_comparables, selected. rewrite Hf.
  rewrite (plain_where _ _ _ min_sqft max_price Hplain).
  destruct (Z.ltb_spec limit 0) as [Hneg | _]; [lia|].
  cbn [bind].
  fold (passes ([CityIs city; StateIs state]
                ++ optional_conditions property_type min_sqft max_price)).
  set (matching := List.filter _ (commercial_comparables w)).
  assert (Hm : matching = [] <->
               forall r, In r (commercial_comparables w) ->
                 passes ([CityIs city; StateIs state]
                         ++ optional_conditions property_type min_sqft max_price) r
                 = false).
  { unfold matching. split.
    - intros Hnil r Hr.
      destruct (passes _ r) eqn:Hp; [|reflexivity].
      assert (Hin : In r (List.filter
                            (passes ([CityIs city; StateIs state]
                                     ++ optional_conditions property_type min_sqft
                                          max_price))
                            (commercial_comparables w)))
        by (apply filter_In; split; assumption).
      rewrite Hnil in Hin. destruct Hin.
    - intros Hall. induction (commercial_comparables w) as [|r l IH];
        [reflexivity|].
      cbn [List.filter]. rewrite (Hall r) by (left; reflexivity).
      apply IH. intros r' Hr'. apply Hall. right. exact Hr'. }
  assert (Hsorted : order_by_price_desc matching = [] <-> matching = []).
  { split.
    - intros Hnil. apply Permutation_nil. rewrite <- Hnil.
      symmetry. apply Permutation_sym, Permutation_sym, order_by_price_desc_perm.
    - intros ->. reflexivity. }
  destruct (firstn (Z.to_nat limit) (order_by_price_desc matching))
    as [|row rest] eqn:Hrows; cbn [try_except].
  - split; [intros _ | reflexivity].
    destruct (Z.to_nat limit) as [|n] eqn:Hn; [left; lia|].
    right. apply Hm, Hsorted.
    destruct (order_by_price_desc matching); [reflexivity | discriminate Hrows].
  - split; [discriminate|].
    intros [-> | Hnone].
    + discriminate Hrows.
    + apply Hm, Hsorted in Hnone. rewrite Hnone in Hrows.
      rewrite firstn_nil in Hrows. discriminate Hrows.
Qed.

End More.

(** The five offices [austin_offices] returns for Austin. *)
Lemma austin_top5 :
  result (find_comparable_properties_in_bq austin_offices (py "AUSTIN") (py "tx")
            (Some []) (Some 0%Z) None 5)
  = Return (ComparableProperties
              (List.map (office (py "Austin") (py "TX"))
                 [900000; 900000; 700000; 500000; 300000]%Z)).
Proof. vm_compute. reflexivity. Qed.

Lemma austin_plain : plain_arguments (py "AUSTIN") (py "tx") (Some []).
Proof.
  repeat split; try reflexivity. intros t H. injection H as <-. reflexivity.
Qed.

(** A city with a quote in it rewrites the query: the row returned is not
    in that city. *)
Lemma quoted_city_selects_other_rows :
  result (find_comparable_properties_in_bq wide_open (py "x') OR ('1'='1")
            (py "TX") None None None 5)
  = Return (ComparableProperties [office (py "Dallas") (py "TX") 900000]).
Proof. vm_compute. reflexivity. Qed.

Lemma returned_rows_pass_the_filters_witness :
  (Z.of_nat 5 <= 5)%Z
  /\ descending_by_price
       (List.map (office (py "Austin") (py "TX"))
          [900000; 900000; 700000; 500000; 300000]%Z).
Proof.
  destruct (returned_rows_pass_the_filters (E := integer_engine) _ _ _ _ _ _ _ _
              austin_plain austin_top5) as (_ & Hlen & Hsorted & _).
  split; [exact Hlen | exact Hsorted].
Defined.

Lemma returned_rows_are_the_most_expensive_witness :
  exists left_out,
    Permutation
      (List.map (office (py "Austin") (py "TX"))
         [900000; 900000; 700000; 500000; 300000]%Z ++ left_out)
      (List.filter
         (@passes integer_engine
            ([CityIs (py "AUSTIN"); StateIs (py "tx")]
             ++ @optional_conditions integer_engine (Some []) (Some 0%Z) None))
         (commercial_comparables austin_offices))
    /\ forall a b,
         In a (List.map (office (py "Austin") (py "TX"))
                 [900000; 900000; 700000; 500000; 300000]%Z) ->
         In b left_out ->
         @order_le integer_engine (col_price b) (col_price a) = true.
Proof.
  apply (returned_rows_are_the_most_expensive (E := integer_engine) _ _ _ _ _ _ _ _
           (fun a b c Hab Hbc =>
              proj2 (Z.leb_le a c)
                (Z.le_trans a b c (proj1 (Z.leb_le a b) Hab)
                   (proj1 (Z.leb_le b c) Hbc)))
           austin_plain austin_top5).
Defined.

Lemma no_comparables_marker_iff_witness :
  result (find_comparable_properties_in_bq austin_offices (py "Austin") (py "TX")
            None None None 0)
  = Return (NoComparableProperties
              (py "No comparable properties found for the given criteria.")).
Proof.
  apply (no_comparables_marker_iff (E := integer_engine) austin_offices
           (py "Austin") (py "TX") None None None 0);
    [discriminate | discriminate | lia | | reflexivity | left; reflexivity].
  split; [reflexivity | split; [reflexivity | discriminate]].
Defined.

End BigqueryToolsMore.

(** ** main.py: further properties *)

Module MainMore.
Import Main MainFacts.

(** X13. The view never raises, and its response is one of three kinds:
    200 with a memo that is not blank, 400 with one of the two fixed
    messages, or 500 with an error message. *)
Theorem response_kinds {R : Repr} (model : agent) (data : json) :
  exists body status,
    analyze_property model data = Return (body, status)
    /\ ((status = 200%Z
         /\ exists memo, body = MemoBody memo /\ blank memo = false)
        \/ (status = 400%Z
            /\ ((body, status) = invalid_json \/ (body, status) = missing_address))
        \/ (status = 500%Z /\ exists msg, body = ErrorBody msg)).
Proof.
  unfold analyze_property, analyze_property_body.
  destruct (truthy data); cbn [negb].
  2:{ do 2 eexists. split; [reflexivity|]. right. left. split; [reflexivity|].
      left. reflexivity. }
  destruct (get data (py "address")) as [a|e]; cbn [bind try_except].
  2:{ do 2 eexists. split; [reflexivity|]. right. right. split; eauto. }
  destruct (truthy a); cbn [negb].
  2:{ do 2 eexists. split; [reflexivity|]. right. left. split; [reflexivity|].
      right. reflexivity. }
  destruct (generate_content model (final_prompt a)) as [reply|e];
    cbn [bind].
  2:{ do 2 eexists. split; [reflexivity|]. right. right. split; eauto. }
  destruct (extract_memo reply) as [memo|e]; cbn [bind].
  2:{ do 2 eexists. split; [reflexivity|]. right. right. split; eauto. }
  rewrite strip_truthy, negb_involutive.
  destruct (blank memo) eqn:Hb.
  - do 2 eexists. split; [reflexivity|]. right. right. split; eauto.
  - do 2 eexists. split; [reflexivity|]. left. split; [reflexivity|]. eauto.
Qed.

(** X14. A request with a falsy body, a body that is not an object, or an
    object whose [address] is absent or falsy is answered without the
    model: the response is the same whatever the model would do. *)
Theorem rejected_requests_ignore_the_model {R : Repr} (model model' : agent)
    (data : json) :
  truthy data = false
  \/ is_dict data = false
  \/ (exists m, data = JObj m /\ truthy (default JNull (m !! py "address")) = false) ->
  analyze_property model data = analyze_property model' data.
Proof.
  intros H. unfold analyze_property, analyze_property_body.
  destruct (truthy data) eqn:Ht; cbn [negb]; [|reflexivity].
  destruct H as [H | [H | [m [-> H]]]]; [discriminate H | |].
  - destruct data; try discriminate H; reflexivity.
  - cbn [get bind]. rewrite H. reflexivity.
Qed.

Lemma rejected_requests_ignore_the_model_witness :
  analyze_property (R := opaque_repr) failing_agent (JObj {[ py "address" := JStr [] ]})
  = analyze_property (R := opaque_repr) writing_agent
      (JObj {[ py "address" := JStr [] ]}).
Proof.
  apply (rejected_requests_ignore_the_model (R := opaque_repr)).
  right. right. eexists. split; [reflexivity|]. vm_compute. reflexivity.
Defined.

(** X15. When the model call raises, the response is 500 with the message
    of the exception. *)
Theorem model_failure_is_a_500 {R : Repr} (model : agent) (m : gmap pystr json)
    (address : json) (e : exn) :
  m !! py "address" = Some address -> truthy address = true ->
  generate_content model (final_prompt address) = Raise e ->
  analyze_property model (JObj m) = Return (ErrorBody (exn_str e), 500%Z).
Proof.
  intros Hm Ha Hg. unfold analyze_property, analyze_property_body.
  rewrite (truthy_dict_lookup m _ _ Hm). cbn [negb get bind].
  rewrite Hm. cbn [default from_option id]. rewrite Ha. cbn [negb].
  rewrite Hg. reflexivity.
Qed.

Lemma model_failure_is_a_500_witness :
  analyze_property (R := opaque_repr) failing_agent cupertino
  = Return (ErrorBody (py "503 Service Unavailable"), 500%Z).
Proof.
  apply (model_failure_is_a_500 (R := opaque_repr) failing_agent
           {[ py "address" := JStr (py "1 Infinite Loop, Cupertino, CA 95014") ]}
           (JStr (py "1 Infinite Loop, Cupertino, CA 95014"))
           (Exn OtherException (py "503 Service Unavailable")));
    vm_compute; reflexivity.
Defined.



(** X18. The endpoint does not apply [validate_address]: an address of one
    to nine characters, which the tool rejects, is sent to the model, and
    the response is decided by the reply: 500 with the message of the
    exception when the memo cannot be built, 500 with the fixed message
    when the memo is blank, 200 with the memo otherwise. *)
Theorem short_address_reaches_the_model {R : Repr} (model : agent)
    (m : gmap pystr json) (s : pystr) (reply : response) :
  m !! py "address" = Some (JStr s) ->
  s <> [] -> (length s < 10)%nat ->
  generate_content model (final_prompt (JStr s)) = Return reply ->
  ValidationTools.valid (ValidationTools.validate_address s) = false
  /\ analyze_property model (JObj m)
     = match extract_memo reply with
       | Return memo =>
           Return (if blank memo then empty_memo else (MemoBody memo, 200%Z))
       | Raise e => Return (ErrorBody (exn_str e), 500%Z)
       end.
Proof.
  intros Hm Hs Hlen Hg. split.
  - unfold ValidationTools.validate_address.
    destruct s as [|c s]; [congruence|]. cbn [str_truthy negb].
    apply Nat.ltb_lt in Hlen. rewrite Hlen. reflexivity.
  - apply (analyze_property_reply model m (JStr s) reply Hm); [|exact Hg].
    destruct s; [congruence | reflexivity].
Qed.

Lemma short_address_reaches_the_model_witness :
  ValidationTools.valid (ValidationTools.validate_address (py "x")) = false
  /\ analyze_property (R := opaque_repr) writing_agent
       (JObj {[ py "address" := JStr (py "x") ]})
     = Return (MemoBody (py "Executive Summary: sound."), 200%Z).
Proof.
  apply (short_address_reaches_the_model (R := opaque_repr) writing_agent
           {[ py "address" := JStr (py "x") ]} (py "x")
           (reply_of [TextPart (py "Executive Summary: "); TextPart (py "sound.")])).
  - vm_compute. reflexivity.
  - intros H. vm_compute in H. discriminate H.
  - vm_compute. lia.
  - reflexivity.
Defined.

End MainMore.
